(** * Receipt field extraction and per-company aggregation

    A shallow embedding of the deterministic core of the receipt pipeline:

    - [_extract_receipt_info] of [setup_script.py] (class
      [AgenticReceiptProcessor]): the line-scanning heuristics that find a
      company name and a total amount in raw receipt text;
    - [agent_2_aggregate_data] of [setup_script.py] and the tool
      [aggregate_data] of [receipt_processor.py]: summation by company;
    - [agent_1_extract_data], [create_sample_receipts] and
      [run_complete_demo] of [setup_script.py]: the two agents in a row;
    - the tools [extract_text_from_pdf] and [list_pdf_files] of
      [receipt_processor.py].

    Modelling conventions.

    - A Python [str] is a [string]; the model covers ASCII text, on which
      [str.upper], [str.lower], [str.isalpha], [str.strip], [str.split],
      [in], [float] and the class [\d] behave as defined below.
      Characters above 127 are opaque symbols here.
    - A Python [float] is an IEEE 754 binary64 value, [spec_float] with
      precision 53 and maximal exponent 1024; [+] is [SFadd 53 1024], and
      [float(s)] rounds the decimal text to the nearest value, ties to
      even.  Two floats are equal here when they are the same value; there
      is one NaN, and the two zeros differ.
    - A raised exception is the [Raise] outcome of the [result] type;
      [try/except] is a match on it.
    - A [dict] keyed by company name is a [gmap string float]; a record
      [{"company_name": ..., "total_amount": ...}] is a [ReceiptRecord]
      with two string fields.
    - Printing, sleeping, and the decoding and the writes of the JSON
      files are not modelled: the aggregators take the list of records.
    - The files a function reads are a map from path to content; a path
      that is not in the map does not open.  Paths are POSIX paths. *)

From Stdlib Require Import ZArith Ascii String List Bool Lia Permutation.
From Stdlib Require Import Floats.SpecFloat.
From stdpp Require Import base option list gmap strings fin_maps.

Local Open Scope string_scope.

(** ** Outcomes of Python code *)

Inductive exn : Type :=
  | ValueError (s : string)   (* float(s) could not convert s *)
  | IndexError.               (* list index out of range *)

Inductive result (A : Type) : Type :=
  | Ok (a : A)
  | Raise (e : exn).

Arguments Ok {A} a.
Arguments Raise {A} e.

#[global] Instance result_bind : MBind result :=
  fun A B (k : A -> result B) (r : result A) =>
    match r with
    | Ok a => k a
    | Raise e => Raise e
    end.

(** ** Characters *)

Module Char.

Definition code (c : ascii) : nat := nat_of_ascii c.

Definition between (lo hi : nat) (c : ascii) : bool :=
  (lo <=? code c)%nat && (code c <=? hi)%nat.

(** Whitespace as [str.strip()] and [str.isspace()] see it in the ASCII
    range: TAB, LF, VT, FF, CR, the separators FS, GS, RS, US, and space. *)
Definition isspace (c : ascii) : bool := between 9 13 c || between 28 32 c.

Definition isdigit (c : ascii) : bool := between 48 57 c.
Definition isupper (c : ascii) : bool := between 65 90 c.
Definition islower (c : ascii) : bool := between 97 122 c.
Definition isalpha (c : ascii) : bool := isupper c || islower c.

Definition upper (c : ascii) : ascii :=
  if islower c then ascii_of_nat (code c - 32) else c.
Definition lower (c : ascii) : ascii :=
  if isupper c then ascii_of_nat (code c + 32) else c.

End Char.

(** ** The [str] methods the extractor uses *)

Module Str.

Definition is_empty (s : string) : bool :=
  match s with
  | EmptyString => true
  | String _ _ => false
  end.

(** Python truthiness of a string: [if s:]. *)
Definition truthy (s : string) : bool := negb (is_empty s).

Fixpoint upper (s : string) : string :=
  match s with
  | EmptyString => EmptyString
  | String c s' => String (Char.upper c) (upper s')
  end.

Fixpoint lower (s : string) : string :=
  match s with
  | EmptyString => EmptyString
  | String c s' => String (Char.lower c) (lower s')
  end.

Fixpoint lstrip (s : string) : string :=
  match s with
  | EmptyString => EmptyString
  | String c s' => if Char.isspace c then lstrip s' else s
  end.

Fixpoint rstrip (s : string) : string :=
  match s with
  | EmptyString => EmptyString
  | String c s' =>
      let r := rstrip s' in
      if Char.isspace c && is_empty r then EmptyString else String c r
  end.

(** [s.strip()] *)
Definition strip (s : string) : string := rstrip (lstrip s).

(** [s.split('\n')]: never empty, [['']] for the empty string. *)
Fixpoint split_lines (s : string) : list string :=
  match s with
  | EmptyString => [EmptyString]
  | String c s' =>
      if Ascii.eqb c "010"%char then EmptyString :: split_lines s'
      else match split_lines s' with
           | l :: ls => String c l :: ls
           | [] => [String c EmptyString]
           end
  end.

(** [s.startswith(p)] *)
Definition startswith (s p : string) : bool := String.prefix p s.

(** [p in s] *)
Fixpoint contains (p s : string) : bool :=
  String.prefix p s ||
  match s with
  | EmptyString => false
  | String _ s' => contains p s'
  end.

(** [s.replace(c, '')] for a one-character [c]. *)
Fixpoint remove (c : ascii) (s : string) : string :=
  match s with
  | EmptyString => EmptyString
  | String d s' => if Ascii.eqb d c then remove c s' else String d (remove c s')
  end.

Fixpoint all_alpha (s : string) : bool :=
  match s with
  | EmptyString => true
  | String c s' => Char.isalpha c && all_alpha s'
  end.

(** [s.isalpha()]: at least one character and every character a letter. *)
Definition isalpha (s : string) : bool := truthy s && all_alpha s.

(** [len(s)] *)
Definition len (s : string) : nat := String.length s.

(** The longest run of ASCII digits at the head of [s], and what follows
    it. *)
Fixpoint digits (s : string) : string :=
  match s with
  | String c s' => if Char.isdigit c then String c (digits s') else EmptyString
  | EmptyString => EmptyString
  end.

Fixpoint drop_digits (s : string) : string :=
  match s with
  | String c s' => if Char.isdigit c then drop_digits s' else s
  | EmptyString => EmptyString
  end.

End Str.

(** ** The regular expression [\$?(\d+\.\d+)] *)

Module Re.

(** [\d+\.\d+] anchored at the head of [s]: the captured text; [\d+] is
    greedy.  Giving back digits of the first run never helps, the character after a shorter
    run being a digit and not the dot; the same holds for the second run,
    which nothing follows. *)
Definition match_number (s : string) : option string :=
  let whole := Str.digits s in
  match Str.drop_digits s with
  | String "."%char rest =>
      let frac := Str.digits rest in
      if Str.truthy whole && Str.truthy frac
      then Some (whole ++ "." ++ frac)
      else None
  | _ => None
  end.

(** The pattern anchored at the head of [s]: the group and the length of
    the whole match.  [\$?] takes the dollar sign when it is there; without
    it the match would have to start with a digit where the dollar sign is. *)
Definition match_here (s : string) : option (string * nat) :=
  match s with
  | String "$"%char s' =>
      match match_number s' with
      | Some g => Some (g, S (String.length g))
      | None => None
      end
  | _ =>
      match match_number s with
      | Some g => Some (g, String.length g)
      | None => None
      end
  end.

(** [re.findall(r'\$?(\d+\.\d+)', s)]: leftmost matches, left to right,
    not overlapping.  [skip] counts the characters of the last match that
    are still to be passed over. *)
Fixpoint findall_from (skip : nat) (s : string) : list string :=
  match s with
  | EmptyString => []
  | String _ s' =>
      match skip with
      | S k => findall_from k s'
      | O =>
          match match_here s with
          | Some (g, n) => g :: findall_from (pred n) s'
          | None => findall_from 0 s'
          end
      end
  end.

Definition findall (s : string) : list string := findall_from 0 s.

End Re.

(** ** The field extractor *)

Record ReceiptRecord : Type := {
  company_name : string;
  total_amount : string
}.

Definition skip_tokens : list string :=
  ["date:"; "time:"; "order:"; "store #"; "transaction"].

Definition brand_tokens : list string :=
  ["STARBUCKS"; "WAL-MART"; "WALMART"; "MCDONALD"].

(** [any(t in s for t in tokens)] *)
Definition any_in (tokens : list string) (s : string) : bool :=
  existsb (fun t => Str.contains t s) tokens.

(** The first loop of [_extract_receipt_info], over [lines[:5]]; the value
    is [company_name] when the loop ends, [""] when nothing was found. *)
Fixpoint scan_company (lines : list string) : string :=
  match lines with
  | [] => ""
  | line :: rest =>
      let line := Str.strip line in
      if Str.truthy line && negb (any_in skip_tokens (Str.lower line)) then
        if any_in brand_tokens (Str.upper line) then
          (* break, with the name the inner if/elif chain has set *)
          if Str.contains "STARBUCKS" (Str.upper line) then "STARBUCKS"
          else if Str.contains "WAL-MART" (Str.upper line)
                  || Str.contains "WALMART" (Str.upper line) then "WALMART"
          else if Str.contains "MCDONALD" (Str.upper line) then "MCDONALDS"
          else ""
        else if Str.isalpha (Str.remove "-" (Str.remove " " line))
                && (3 <? Str.len line)%nat then
          Str.upper line (* break *)
        else scan_company rest
      else scan_company rest
  end.

(** The test of the second loop on an upper-cased, stripped line. *)
Definition is_total_line (line : string) : bool :=
  Str.contains "TOTAL:" line
  || (Str.startswith line "TOTAL" && Str.contains "$" line).

(** [amounts[-1]] *)
Definition last_item (amounts : list string) : result string :=
  match last amounts with
  | Some a => Ok a
  | None => Raise IndexError
  end.

(** The second loop, over all lines; the value is [total_amount] when the
    loop ends. *)
Fixpoint scan_total (lines : list string) : result string :=
  match lines with
  | [] => Ok ""
  | line :: rest =>
      let line := Str.upper (Str.strip line) in
      if is_total_line line then
        let amounts := Re.findall line in
        match amounts with
        | _ :: _ => last_item amounts (* then break *)
        | [] => Ok ""                 (* break *)
        end
      else scan_total rest
  end.

(** The fallback on the file name. *)
Definition company_from_filename (filename : string) : string :=
  if Str.contains "starbucks" (Str.lower filename) then "STARBUCKS"
  else if Str.contains "walmart" (Str.lower filename) then "WALMART"
  else if Str.contains "mcdonalds" (Str.lower filename)
          || Str.contains "mcd" (Str.lower filename) then "MCDONALDS"
  else "UNKNOWN_STORE".

(** [content.strip().split('\n')] *)
Definition receipt_lines (content : string) : list string :=
  Str.split_lines (Str.strip content).

Definition _extract_receipt_info (content filename : string)
  : result ReceiptRecord :=
  let lines := receipt_lines content in
  let company_name := scan_company (take 5 lines) in
  total_amount ← scan_total lines;
  let company_name :=
    if Str.truthy company_name then company_name
    else company_from_filename filename in
  let total_amount :=
    if Str.truthy total_amount then total_amount else "10.00" in
  Ok {| company_name := company_name; total_amount := total_amount |}.

(** ** Python floats *)

Module PyFloat.

Abbreviation float := spec_float.

Definition prec : Z := 53.
Definition emax : Z := 1024.

(** [x + y] on floats: binary64 addition, rounding to nearest even. *)
Definition add (x y : float) : float := SFadd prec emax x y.

(** Whitespace as [float] strips it from both ends of its argument: TAB,
    LF, VT, FF, CR and space.  The separators FS, GS, RS and US, which
    [str.strip] removes, are not among them. *)
Definition isspace (c : ascii) : bool :=
  Char.between 9 13 c || Ascii.eqb c " "%char.

Fixpoint lstrip (s : string) : string :=
  match s with
  | EmptyString => EmptyString
  | String c s' => if isspace c then lstrip s' else s
  end.

Fixpoint rstrip (s : string) : string :=
  match s with
  | EmptyString => EmptyString
  | String c s' =>
      let r := rstrip s' in
      if isspace c && Str.is_empty r then EmptyString else String c r
  end.

Definition strip (s : string) : string := rstrip (lstrip s).

(** The value of a run of digits read after [acc]. *)
Fixpoint digits_value (acc : Z) (s : string) : Z :=
  match s with
  | EmptyString => acc
  | String c s' =>
      digits_value (10 * acc + Z.of_nat (Char.code c - 48)) s'
  end.

(** The binary64 value nearest to [(-1)^neg * m * 10^e], ties to even,
    for [0 <= m]: what a correctly rounding [strtod] returns.  Too large a
    value gives an infinity, too small a one a zero. *)
Definition of_decimal (neg : bool) (m e : Z) : float :=
  match m with
  | Z0 => S754_zero neg
  | _ =>
      if (0 <=? e)%Z then
        binary_normalize prec emax (cond_Zopp neg (m * 10 ^ e)) 0 neg
      else
        let '(q, e', l) :=
          SFdiv_core_binary prec emax m 0 (10 ^ (- e)) 0 in
        binary_round_aux prec emax neg q e' l
  end.

Definition parse_sign (s : string) : bool * string :=
  match s with
  | String "-"%char r => (true, r)
  | String "+"%char r => (false, r)
  | _ => (false, s)
  end.

(** [("e" | "E") [sign] digits], or nothing, up to the end of the text. *)
Definition parse_exponent (s : string) : option Z :=
  match s with
  | EmptyString => Some 0%Z
  | String c r =>
      if Ascii.eqb c "e"%char || Ascii.eqb c "E"%char then
        let '(neg, ds) := parse_sign r in
        if Str.truthy ds && Str.is_empty (Str.drop_digits ds)
        then Some (cond_Zopp neg (digits_value 0 ds))
        else None
      else None
  end.

(** [digits ["." [digits]] [exponent]] or ["." digits [exponent]]. *)
Definition parse_number (neg : bool) (s : string) : option float :=
  let whole := Str.digits s in
  let after := Str.drop_digits s in
  let '(frac, rest) :=
    match after with
    | String "."%char r => (Str.digits r, Str.drop_digits r)
    | _ => (EmptyString, after)
    end in
  if Str.truthy whole || Str.truthy frac then
    match parse_exponent rest with
    | Some e =>
        Some (of_decimal neg (digits_value 0 (whole ++ frac))
                (e - Z.of_nat (String.length frac)))
    | None => None
    end
  else None.

(** A whole text as a float: an optional sign, then [inf], [infinity] or
    [nan] in any case, or a decimal number. *)
Definition parse (s : string) : option float :=
  let '(neg, body) := parse_sign s in
  let name := Str.lower body in
  if String.eqb name "inf" || String.eqb name "infinity"
  then Some (S754_infinity neg)
  else if String.eqb name "nan" then Some S754_nan
  else parse_number neg body.

(** Underscores may only stand between two digits; [prev] is the character
    before [s]. *)
Fixpoint underscores_from (prev : ascii) (s : string) : bool :=
  match s with
  | EmptyString => negb (Ascii.eqb prev "_"%char)
  | String c s' =>
      (if Ascii.eqb c "_"%char then Char.isdigit prev
       else negb (Ascii.eqb prev "_"%char) || Char.isdigit c)
      && underscores_from c s'
  end.

Definition underscores_ok (s : string) : bool :=
  underscores_from "000"%char s.

(** The builtin [float(s)] on a string: [ValueError] unless the text, with
    the grouping underscores removed and the surrounding whitespace
    stripped, is a float literal. *)
Definition of_str (s : string) : result float :=
  if underscores_ok s then
    match parse (strip (Str.remove "_"%char s)) with
    | Some x => Ok x
    | None => Raise (ValueError s)
    end
  else Raise (ValueError s).

End PyFloat.

Abbreviation float := PyFloat.float.

(** ** The aggregator *)

(** One pass of the loop body: [aggregated[company] += amount], or
    [aggregated[company] = amount] for a new company. *)
Definition add_amount (aggregated : gmap string float)
    (company : string) (amount : float) : gmap string float :=
  match aggregated !! company with
  | Some old_total => <[company := PyFloat.add old_total amount]> aggregated
  | None => <[company := amount]> aggregated
  end.

(** The loop over the records, from the dictionary built so far. *)
Fixpoint aggregate_loop (aggregated : gmap string float)
    (extracted_data : list ReceiptRecord) : result (gmap string float) :=
  match extracted_data with
  | [] => Ok aggregated
  | record :: rest =>
      let company := company_name record in
      amount ← PyFloat.of_str (total_amount record);
      aggregate_loop (add_amount aggregated company amount) rest
  end.

(** [AgenticReceiptProcessor.agent_2_aggregate_data]: no handler, an error
    of [float] reaches the caller. *)
Definition agent_2_aggregate_data (extracted_data : list ReceiptRecord)
  : result (gmap string float) :=
  aggregate_loop ∅ extracted_data.

(** [try: body except Exception as e: handler(e)] *)
Definition try_except {A : Type} (body : result A) (handler : exn -> result A)
  : result A :=
  match body with
  | Ok a => Ok a
  | Raise e => handler e
  end.

(** The string the tool [aggregate_data] returns has one of two shapes:
    the JSON text of the dictionary, or the message
    ["Error aggregating data: ..."] built from the exception caught. *)
Inductive tool_output : Type :=
  | JsonDump (aggregated : gmap string float)
  | ErrorAggregating (e : exn).

(** [ReceiptProcessingTools.aggregate_data], on the decoded list. *)
Definition aggregate_data (extracted_data : list ReceiptRecord)
  : result tool_output :=
  try_except
    (aggregated ← aggregate_loop ∅ extracted_data;
     Ok (JsonDump aggregated))
    (fun e => Ok (ErrorAggregating e)).

(** ** Vocabulary of the extraction properties *)

(** The test of the second loop on a line of the receipt, and the amounts
    the loop finds in it. *)
Definition total_line (line : string) : bool :=
  is_total_line (Str.upper (Str.strip line)).

Definition line_amounts (line : string) : list string :=
  Re.findall (Str.upper (Str.strip line)).

(** The lines of a text: as [split] cuts the raw text, or as the extractor
    cuts it after stripping the text. *)
Definition text_lines (content : string) (lines : list string) : Prop :=
  lines = Str.split_lines content \/ lines = receipt_lines content.

(** The stripped lines that are not blank. *)
Definition visible_lines (lines : list string) : list string :=
  filter (fun l => Str.truthy l = true) (Str.strip <$> lines).

(** The first line of [lines] for which [rule] has a result. *)
Fixpoint first_result (rule : string -> option string) (lines : list string)
  : option string :=
  match lines with
  | [] => None
  | line :: rest =>
      match rule line with
      | Some name => Some name
      | None => first_result rule rest
      end
  end.

(** The rule of the company-name scan for one line, written after the
    words of the specification; [letters] is the reading of "consists only
    of letters". *)
Module Rule.

(** A stripped line that is passed over: empty, or with a metadata token
    in its lower-cased form. *)
Definition skipped (line : string) : bool :=
  Str.is_empty line || any_in skip_tokens (Str.lower line).

(** The canonical brand of a line whose upper-cased form contains a
    known-brand substring. *)
Definition brand (line : string) : option string :=
  if Str.contains "STARBUCKS" (Str.upper line) then Some "STARBUCKS"
  else if Str.contains "WAL-MART" (Str.upper line)
          || Str.contains "WALMART" (Str.upper line) then Some "WALMART"
  else if Str.contains "MCDONALD" (Str.upper line) then Some "MCDONALDS"
  else None.

Section Letters.

Variable letters : string -> bool.

(** A line of letters, spaces and hyphens longer than 3 characters. *)
Definition generic (line : string) : option string :=
  if letters (Str.remove "-" (Str.remove " " line)) && (3 <? Str.len line)%nat
  then Some (Str.upper line)
  else None.

Definition name_of_line (raw : string) : option string :=
  let line := Str.strip raw in
  if skipped line then None
  else match brand line with
       | Some name => Some name
       | None => generic line
       end.

End Letters.

End Rule.

(** The rule with "only letters" read as Python's [isalpha]: at least one
    letter. *)
Definition name_of_line : string -> option string :=
  Rule.name_of_line Str.isalpha.

(** The specification read to the letter: the first 5 lines of the raw
    text, and "consists only of letters" true of every text without a
    character that is no letter. *)
Module Claimed.

Definition company (content : string) : option string :=
  first_result (Rule.name_of_line Str.all_alpha)
    (take 5 (Str.split_lines content)).

End Claimed.

(** A receipt that opens with a separator line. *)
Definition separator_receipt : string :=
  "--------
STARBUCKS COFFEE
TOTAL: $4.50".

(** A receipt after six empty lines. *)
Definition late_receipt : string :=
  "





STARBUCKS COFFEE
TOTAL: $4.50".

(** A receipt whose slogan precedes the brand line. *)
Definition slogan_receipt : string :=
  "Golden Arches
McDonald's Restaurant
TOTAL: $9.45".

(** Text without a header and without a total line. *)
Definition blank_receipt : string :=
  "0042 / 17
#### 12345".

(** A total line with a whole-dollar amount, and a later one. *)
Definition whole_dollar_receipt : string :=
  "STARBUCKS COFFEE
TOTAL: $15
TOTAL: $15.86".

(** The first sample receipt of [create_sample_receipts]. *)
Definition sample_starbucks_01 : string :=
  "STARBUCKS COFFEE
Store #1234
123 Main Street, Seattle WA

Date: 2024-01-15  Time: 08:30
Order: 1234567890

Grande Pike Place Roast    $2.85
Venti Caramel Macchiato   $5.95
Chocolate Croissant       $3.25
Cookie                    $2.50

Subtotal:                $14.55
Tax:                     $1.31
TOTAL:                  $15.86

Thank you for visiting Starbucks!".

(** A receipt with a savings line before the subtotal. *)
Definition savings_receipt : string :=
  "Total savings $2.00
Subtotal: $8.75
TOTAL: $9.45".

(** One line with three amounts. *)
Definition summary_line : string :=
  "Subtotal: $8.75  Tax: $0.70  TOTAL: $9.45".

(** ** Vocabulary of the aggregation properties *)

(** [float] accepts the text. *)
Definition parses (s : string) : bool :=
  match PyFloat.of_str s with
  | Ok _ => true
  | Raise _ => false
  end.

(** Every record carries a numeric amount. *)
Definition numeric (rs : list ReceiptRecord) : Prop :=
  Forall (fun r => parses (total_amount r) = true) rs.

Definition amount_of (r : ReceiptRecord) : option float :=
  match PyFloat.of_str (total_amount r) with
  | Ok x => Some x
  | Raise _ => None
  end.

(** The records of one company, in input order, and their amounts. *)
Definition records_of (c : string) (rs : list ReceiptRecord)
  : list ReceiptRecord :=
  filter (fun r => company_name r = c) rs.

Definition company_amounts (c : string) (rs : list ReceiptRecord)
  : list float :=
  omap amount_of (records_of c rs).

(** A dictionary entry after the amounts [xs] have been added to it one by
    one; [None] is the absent key. *)
Definition running_total (entry : option float) (xs : list float)
  : option float :=
  fold_left
    (fun acc x =>
       Some (match acc with Some t => PyFloat.add t x | None => x end))
    xs entry.

(** The float sum of a sequence, left to right, from its first element;
    nothing for the empty sequence. *)
Definition float_sum (xs : list float) : option float :=
  match xs with
  | [] => None
  | x :: xs' => Some (fold_left PyFloat.add xs' x)
  end.

Definition mk (c a : string) : ReceiptRecord :=
  {| company_name := c; total_amount := a |}.

(** The value Python writes as the literal [s]. *)
Definition lit (s : string) : option float :=
  match PyFloat.of_str s with
  | Ok x => Some x
  | Raise _ => None
  end.

(** The records of the aggregation scenario. *)
Definition scenario_records : list ReceiptRecord :=
  [mk "STARBUCKS" "15.50"; mk "MCDONALDS" "8.75"; mk "STARBUCKS" "12.25";
   mk "WALMART" "45.60"; mk "MCDONALDS" "6.50"].

(** Three amounts of one company, and the same records in reverse order. *)
Definition tenths : list ReceiptRecord :=
  [mk "ACME" "0.1"; mk "ACME" "0.2"; mk "ACME" "0.3"].

Definition tenths_reversed : list ReceiptRecord :=
  [mk "ACME" "0.3"; mk "ACME" "0.2"; mk "ACME" "0.1"].

(** [aggregate(A)] and [aggregate(B)] summed per company: a key of one map
    only keeps its value. *)
Definition sum_maps (a b : gmap string float) : gmap string float :=
  union_with (fun x y => Some (PyFloat.add x y)) a b.

(** The entry of company [c] in the outcome of an aggregation. *)
Definition entry_of (c : string) (r : result (gmap string float))
  : option float :=
  match r with
  | Ok m => m !! c
  | Raise _ => None
  end.

(** Two batches of one company. *)
Definition batch_a : list ReceiptRecord := [mk "ACME" "0.1"].
Definition batch_b : list ReceiptRecord := [mk "ACME" "0.2"; mk "ACME" "0.3"].

(** A record whose amount is no number. *)
Definition corrupt_records : list ReceiptRecord :=
  [mk "STARBUCKS" "15.50"; mk "WALMART" "abc"].

(** ** The rest of the pipeline *)

(** A text made of digits only. *)
Fixpoint all_digits (s : string) : bool :=
  match s with
  | EmptyString => true
  | String c s' => Char.isdigit c && all_digits s'
  end.

(** A text of the form digits, dot, digits, with a digit on either side
    of the dot. *)
Definition decimal_text (s : string) : bool :=
  match Str.drop_digits s with
  | String "."%char frac =>
      Str.truthy (Str.digits s) && Str.truthy frac && all_digits frac
  | _ => false
  end.

(** A text of digits and dots. *)
Fixpoint plain (s : string) : bool :=
  match s with
  | EmptyString => true
  | String c s' => (Char.isdigit c || Ascii.eqb c "."%char) && plain s'
  end.

(** [s.endswith(suffix)] *)
Fixpoint endswith (s suffix : string) : bool :=
  String.eqb s suffix ||
  match s with
  | EmptyString => false
  | String _ s' => endswith s' suffix
  end.






(** [f"./receipt_pdfs/{filename}"] *)
Definition receipt_path (filename : string) : string :=
  "./receipt_pdfs/" ++ filename.


(** What the body of the [try] in [agent_1_extract_data] can raise. *)
Inductive agent_1_exn : Type :=
  | FileNotFoundError (filepath : string)
  | ExtractorError (e : exn).

(** The body of the [try]: read the file, extract the record. *)
Definition read_and_extract (files : gmap string string) (filename : string)
  : agent_1_exn + ReceiptRecord :=
  let filepath := receipt_path filename in
  match files !! filepath with
  | None => inl (FileNotFoundError filepath)
  | Some content =>
      match _extract_receipt_info content filename with
      | Ok result => inr result
      | Raise e => inl (ExtractorError e)
      end
  end.

(** The record the [except] clause appends. *)
Definition fallback_record : ReceiptRecord :=
  {| company_name := "UNKNOWN"; total_amount := "0.00" |}.

(** The loop of [agent_1_extract_data]: [extracted_results] grows by one
    record per file name. *)
Fixpoint agent_1_loop (files : gmap string string)
    (extracted_results : list ReceiptRecord) (receipt_files : list string)
  : list ReceiptRecord :=
  match receipt_files with
  | [] => extracted_results
  | filename :: rest =>
      let result :=
        match read_and_extract files filename with
        | inr result => result
        | inl _ => fallback_record
        end in
      agent_1_loop files (extracted_results ++ [result])%list rest
  end.

(** [AgenticReceiptProcessor.agent_1_extract_data] *)
Definition agent_1_extract_data (files : gmap string string)
    (receipt_files : list string) : list ReceiptRecord :=
  agent_1_loop files [] receipt_files.


(** The records and the expected totals of [test_script.py]. *)
Definition sample_extracted_data : list ReceiptRecord :=
  [mk "Starbucks" "15.50"; mk "McDonald's" "8.75"; mk "Starbucks" "12.25";
   mk "Walmart" "45.60"; mk "McDonald's" "6.50"; mk "Target" "23.80";
   mk "Domino's Pizza" "18.90"; mk "Starbucks" "9.75"].

Definition expected_totals : list (string * string) :=
  [("Starbucks", "37.50"); ("McDonald's", "15.25"); ("Walmart", "45.60");
   ("Target", "23.80"); ("Domino's Pizza", "18.90")].

(** ** The tools of [receipt_processor.py] *)

Module Tools.

(** [os.path.isabs] and [os.path.join] of two parts, as on POSIX. *)
Definition isabs (path : string) : bool := Str.startswith path "/".

Definition join (a b : string) : string :=
  if isabs b then b
  else if Str.is_empty a || endswith a "/" then a ++ b
  else a ++ "/" ++ b.

(** The path [extract_text_from_pdf] opens for the argument it gets. *)
Definition full_path (pdf_path : string) : string :=
  if Str.startswith pdf_path "./receipt_pdfs/" then pdf_path
  else if negb (isabs pdf_path) then join "./receipt_pdfs" pdf_path
  else pdf_path.

(** A PDF file as the tool sees it: the text of its pages, the empty text
    for a page without any, or the error [pdfplumber] raises on it. *)
Inductive pdf : Type :=
  | Pages (texts : list string)
  | Unreadable (message : string).

(** The loop over the pages: [text += page_text + "\n"] for the pages
    with text. *)
Fixpoint pages_text (text : string) (texts : list string) : string :=
  match texts with
  | [] => text
  | page_text :: rest =>
      if Str.truthy page_text
      then pages_text (text ++ page_text ++ String "010"%char "") rest
      else pages_text text rest
  end.

(** [ReceiptProcessingTools.extract_text_from_pdf] *)
Definition extract_text_from_pdf (pdfs : gmap string pdf) (pdf_path : string)
  : string :=
  let full_path := full_path pdf_path in
  match pdfs !! full_path with
  | None => "Error: PDF file not found at " ++ full_path
  | Some (Unreadable message) => "Error reading PDF: " ++ message
  | Some (Pages texts) =>
      let text := pages_text "" texts in
      if Str.truthy (Str.strip text) then Str.strip text
      else "No text found in PDF"
  end.

(** A path for [os.listdir]: a directory with its entries, or a file. *)
Inductive node : Type :=
  | Directory (entries : list string)
  | File.

(** The string [list_pdf_files] returns has one of three shapes. *)
Inductive listing : Type :=
  | DoesNotExist (directory : string)
  | PdfFiles (names : list string)
  | ErrorListing.

(** [ReceiptProcessingTools.list_pdf_files] *)
Definition list_pdf_files (nodes : gmap string node) (directory : string)
  : listing :=
  match nodes !! directory with
  | None => DoesNotExist directory
  | Some (Directory entries) =>
      PdfFiles (filter (fun f => endswith (Str.lower f) ".pdf" = true) entries)
  | Some File => ErrorListing
  end.

(** The files [test_full_system] of [test_script.py] looks for. *)
Definition test_pdf_files (entries : list string) : list string :=
  filter (fun f => endswith f ".pdf" = true) entries.

End Tools.

(** ** Facts about the aggregation loop *)

Section Aggregation.

Implicit Types (m : gmap string float) (rs : list ReceiptRecord).
Implicit Types (c : string) (x : float).

Lemma parses_amount_of r :
  parses (total_amount r) = true -> exists x,
    PyFloat.of_str (total_amount r) = Ok x /\ amount_of r = Some x.
Proof.
  unfold parses, amount_of.
  destruct (PyFloat.of_str (total_amount r)) as [x|e]; [eauto | discriminate].
Qed.

Lemma running_total_some t xs :
  running_total (Some t) xs = Some (fold_left PyFloat.add xs t).
Proof.
  revert t. induction xs as [|x xs IH]; intros t; [reflexivity|].
  apply IH.
Qed.

Lemma running_total_none xs : running_total None xs = float_sum xs.
Proof.
  destruct xs as [|x xs]; [reflexivity|]. apply running_total_some.
Qed.

Lemma running_total_cons entry x xs :
  running_total entry (x :: xs) =
  running_total
    (Some (match entry with Some t => PyFloat.add t x | None => x end)) xs.
Proof. reflexivity. Qed.

Lemma running_total_is_Some entry xs :
  is_Some (running_total entry xs) <-> is_Some entry \/ xs <> [].
Proof.
  destruct xs as [|x xs].
  - simpl. split; [auto | intros [H|H]; [exact H | congruence]].
  - rewrite running_total_cons, running_total_some.
    split; [intros _; right; discriminate | eauto].
Qed.

Lemma add_amount_lookup m company x c :
  add_amount m company x !! c =
  if decide (company = c)
  then running_total (m !! c) [x]
  else m !! c.
Proof.
  unfold add_amount. destruct (decide (company = c)) as [->|Hne].
  - destruct (m !! c) as [t|]; simpl; apply lookup_insert_eq.
  - destruct (m !! company); by rewrite lookup_insert_ne.
Qed.

Lemma company_amounts_cons c r rs :
  company_amounts c (r :: rs) =
  if decide (company_name r = c)
  then match amount_of r with
       | Some x => x :: company_amounts c rs
       | None => company_amounts c rs
       end
  else company_amounts c rs.
Proof.
  unfold company_amounts, records_of. rewrite filter_cons.
  destruct (decide (company_name r = c)); reflexivity.
Qed.

(** The loop from [m] over numeric records ends normally, and each entry
    of the result is the entry of [m] with the company's amounts added in
    input order. *)
Lemma aggregate_loop_ok rs :
  numeric rs -> forall m, exists m',
    aggregate_loop m rs = Ok m' /\
    forall c, m' !! c = running_total (m !! c) (company_amounts c rs).
Proof.
  induction 1 as [|r rs Hr _ IH]; intros m.
  - exists m. split; reflexivity.
  - destruct (parses_amount_of r Hr) as (x & Hx & Ha).
    destruct (IH (add_amount m (company_name r) x)) as (m' & Hm' & Hlook).
    exists m'. split.
    + simpl. rewrite Hx. exact Hm'.
    + intros c. rewrite Hlook, add_amount_lookup, company_amounts_cons, Ha.
      destruct (decide (company_name r = c)); reflexivity.
Qed.

(** The loop stops with the error of the first amount [float] rejects. *)
Lemma aggregate_loop_raise rs :
  forall m e, aggregate_loop m rs = Raise e ->
    Exists (fun r => parses (total_amount r) = false) rs.
Proof.
  induction rs as [|r rs IH]; intros m e H; [discriminate|].
  simpl in H. unfold parses.
  destruct (PyFloat.of_str (total_amount r)) as [x|e'] eqn:Hx.
  - apply Exists_cons_tl. eapply IH. exact H.
  - apply Exists_cons_hd. rewrite Hx. reflexivity.
Qed.

Lemma numeric_or_not rs :
  numeric rs \/ Exists (fun r => parses (total_amount r) = false) rs.
Proof.
  induction rs as [|r rs [IH|IH]].
  - left. constructor.
  - destruct (parses (total_amount r)) eqn:Hr.
    + left. constructor; assumption.
    + right. apply Exists_cons_hd. exact Hr.
  - right. apply Exists_cons_tl. exact IH.
Qed.

Lemma company_amounts_nil c rs :
  numeric rs -> company_amounts c rs = [] <-> c ∉ company_name <$> rs.
Proof.
  induction 1 as [|r rs Hr _ IH].
  - split; [intros _; apply not_elem_of_nil | reflexivity].
  - rewrite company_amounts_cons, fmap_cons, not_elem_of_cons.
    destruct (parses_amount_of r Hr) as (x & _ & ->).
    destruct (decide (company_name r = c)) as [<-|Hne].
    + split; [discriminate | intros [[] _]; reflexivity].
    + rewrite IH. split; [intros H; split; [congruence | exact H] | tauto].
Qed.

End Aggregation.

(** ** The aggregator: claims *)

Section AggregatorClaims.

Implicit Types (m : gmap string float) (rs : list ReceiptRecord).

Lemma agent_2_ok rs :
  numeric rs -> exists m,
    agent_2_aggregate_data rs = Ok m /\
    forall c, m !! c = float_sum (company_amounts c rs).
Proof.
  intros Hnum. destruct (aggregate_loop_ok rs Hnum ∅) as (m & Hm & Hlook).
  exists m. split; [exact Hm|].
  intros c. rewrite Hlook, lookup_empty. apply running_total_none.
Qed.

Lemma float_sum_is_Some (xs : list float) : is_Some (float_sum xs) <-> xs <> [].
Proof.
  destruct xs; simpl; split; try congruence; eauto.
  intros []. discriminate.
Qed.

Lemma aggregate_data_of_agent_2 rs :
  aggregate_data rs =
  match agent_2_aggregate_data rs with
  | Ok m => Ok (JsonDump m)
  | Raise e => Ok (ErrorAggregating e)
  end.
Proof.
  unfold aggregate_data, agent_2_aggregate_data.
  destruct (aggregate_loop ∅ rs); reflexivity.
Qed.

Lemma numeric_scenario : numeric scenario_records.
Proof. repeat constructor. Qed.

(** C1. On records with numeric amounts the aggregation (the method
    [agent_2_aggregate_data], and the JSON the tool [aggregate_data]
    returns) is a map whose keys are exactly the company names of the
    records and whose value at a company is the float sum, in input order,
    of the parsed amounts of that company's records; on the five records
    of the scenario it is
    [{STARBUCKS: 27.75, MCDONALDS: 15.25, WALMART: 45.60}]. *)
Theorem aggregate_sums_per_company rs :
  numeric rs ->
  (exists m,
     agent_2_aggregate_data rs = Ok m /\
     aggregate_data rs = Ok (JsonDump m) /\
     (forall c, is_Some (m !! c) <-> c ∈ company_name <$> rs) /\
     (forall c, m !! c = float_sum (company_amounts c rs))) /\
  (exists x y z,
     lit "27.75" = Some x /\ lit "15.25" = Some y /\ lit "45.60" = Some z /\
     agent_2_aggregate_data scenario_records =
       Ok {[ "STARBUCKS" := x; "MCDONALDS" := y; "WALMART" := z ]}).
Proof.
  intros Hnum. split.
  - destruct (agent_2_ok rs Hnum) as (m & Hm & Hlook).
    exists m. repeat split.
    + exact Hm.
    + rewrite aggregate_data_of_agent_2, Hm. reflexivity.
    + rewrite Hlook. intros H. apply float_sum_is_Some in H.
      destruct (decide (c ∈ company_name <$> rs)) as [|Hc]; [assumption|].
      apply company_amounts_nil in Hc; [contradiction | exact Hnum].
    + rewrite Hlook. intros Hc. apply float_sum_is_Some.
      intros Hnil. apply company_amounts_nil in Hnil; [contradiction | exact Hnum].
    + exact Hlook.
  - eexists _, _, _. repeat split; vm_compute; reflexivity.
Qed.

Lemma aggregate_sums_per_company_witness :
  numeric scenario_records /\
  exists m,
    agent_2_aggregate_data scenario_records = Ok m /\
    m !! "STARBUCKS" = float_sum (company_amounts "STARBUCKS" scenario_records).
Proof.
  split; [exact numeric_scenario|].
  destruct (aggregate_sums_per_company scenario_records numeric_scenario)
    as [(m & Hm & _ & _ & Hsum) _].
  exists m. split; [exact Hm | apply Hsum].
Defined.

Lemma numeric_Permutation rs rs' : rs ≡ₚ rs' -> numeric rs -> numeric rs'.
Proof. unfold numeric. intros Hp H. by rewrite <- Hp. Qed.

Lemma agent_2_dom rs m :
  numeric rs -> agent_2_aggregate_data rs = Ok m ->
  dom m = list_to_set (company_name <$> rs).
Proof.
  intros Hnum Hm. destruct (agent_2_ok rs Hnum) as (m' & Hm' & Hlook).
  assert (m' = m) as -> by congruence.
  apply set_eq. intros c.
  rewrite elem_of_dom, elem_of_list_to_set, Hlook, float_sum_is_Some.
  rewrite company_amounts_nil by exact Hnum.
  destruct (decide (c ∈ company_name <$> rs)); tauto.
Qed.

Lemma numeric_tenths : numeric tenths.
Proof. repeat constructor. Qed.

Lemma tenths_reversed_Permutation : tenths ≡ₚ tenths_reversed.
Proof. change tenths_reversed with (reverse tenths). by rewrite reverse_Permutation. Qed.

(** C5, as stated, fails: the three records of one company with amounts
    0.1, 0.2 and 0.3 give the total 0.6000000000000001, and in reverse
    order the total 0.6. *)
Lemma aggregate_permutation_counterexample :
  numeric tenths /\ tenths ≡ₚ tenths_reversed /\
  agent_2_aggregate_data tenths_reversed <> agent_2_aggregate_data tenths.
Proof.
  split; [exact numeric_tenths|]. split; [exact tenths_reversed_Permutation|].
  intros H. apply (f_equal (entry_of "ACME")) in H.
  vm_compute in H. discriminate H.
Qed.

(** C5, amended. For records with numeric amounts and any permutation of
    them, both aggregations end normally with the same set of keys, and
    each total is the float sum of the company's amounts in the order of
    the sequence aggregated; the two maps are equal whenever the
    permutation keeps the records of every company in their relative
    order. *)
Theorem aggregate_permutation rs rs' :
  numeric rs -> rs ≡ₚ rs' ->
  exists m m',
    agent_2_aggregate_data rs = Ok m /\
    agent_2_aggregate_data rs' = Ok m' /\
    dom m' = dom m /\
    (forall c, m' !! c = float_sum (company_amounts c rs')) /\
    ((forall c, records_of c rs' = records_of c rs) -> m' = m).
Proof.
  intros Hnum Hperm.
  pose proof (numeric_Permutation rs rs' Hperm Hnum) as Hnum'.
  destruct (agent_2_ok rs Hnum) as (m & Hm & Hlook).
  destruct (agent_2_ok rs' Hnum') as (m' & Hm' & Hlook').
  exists m, m'. repeat split; try assumption.
  - rewrite (agent_2_dom rs' m' Hnum' Hm'), (agent_2_dom rs m Hnum Hm).
    apply set_eq. intros c. rewrite !elem_of_list_to_set. by rewrite Hperm.
  - intros Hsame. apply map_eq. intros c.
    rewrite Hlook, Hlook'. unfold company_amounts. by rewrite Hsame.
Qed.

Lemma aggregate_permutation_witness :
  exists m m',
    agent_2_aggregate_data scenario_records = Ok m /\
    agent_2_aggregate_data (reverse scenario_records) = Ok m' /\
    dom m' = dom m.
Proof.
  destruct (aggregate_permutation scenario_records (reverse scenario_records)
              numeric_scenario)
    as (m & m' & Hm & Hm' & Hdom & _).
  - symmetry. apply reverse_Permutation.
  - exists m, m'. repeat split; assumption.
Defined.

Lemma aggregate_loop_app rs1 rs2 : forall m,
  aggregate_loop m (rs1 ++ rs2) =
  (m1 ← aggregate_loop m rs1; aggregate_loop m1 rs2).
Proof.
  induction rs1 as [|r rs1 IH]; intros m; [reflexivity|].
  simpl. destruct (PyFloat.of_str (total_amount r)) as [x|e]; [|reflexivity].
  apply IH.
Qed.

Lemma records_of_absent c rs :
  c ∉ company_name <$> rs -> records_of c rs = [].
Proof.
  induction rs as [|r rs IH]; [reflexivity|].
  rewrite fmap_cons, not_elem_of_cons. intros [Hne Hc].
  unfold records_of. rewrite filter_cons_False by congruence. by apply IH.
Qed.

(** With no company named twice, a company has at most one amount. *)
Lemma company_amounts_NoDup c rs :
  NoDup (company_name <$> rs) ->
  company_amounts c rs = [] \/ exists x, company_amounts c rs = [x].
Proof.
  induction rs as [|r rs IH]; [by left|].
  rewrite fmap_cons, NoDup_cons. intros [Hr Hnd].
  rewrite company_amounts_cons.
  destruct (decide (company_name r = c)) as [<-|Hne]; [|by apply IH].
  unfold company_amounts at 1 2 3. rewrite (records_of_absent _ _ Hr). simpl.
  destruct (amount_of r); eauto.
Qed.

Lemma numeric_batches : numeric batch_a /\ numeric batch_b.
Proof. split; repeat constructor. Qed.

(** C6, as stated, fails: aggregating 0.1 and then 0.2 and 0.3 of one
    company gives (0.1 + 0.2) + 0.3 = 0.6000000000000001, the sum of the
    two aggregates gives 0.1 + (0.2 + 0.3) = 0.6. *)
Lemma aggregate_concat_counterexample :
  numeric batch_a /\ numeric batch_b /\
  exists ma mb mab,
    agent_2_aggregate_data batch_a = Ok ma /\
    agent_2_aggregate_data batch_b = Ok mb /\
    agent_2_aggregate_data (batch_a ++ batch_b) = Ok mab /\
    mab <> sum_maps ma mb.
Proof.
  split; [apply numeric_batches|]. split; [apply numeric_batches|].
  eexists _, _, _. repeat split; try reflexivity.
  intros H. apply (f_equal (fun m : gmap string float => m !! "ACME")) in H.
  vm_compute in H. discriminate H.
Qed.

(** C6, amended. For numeric record sequences A and B, the aggregate of
    A ++ B has the keys of both aggregates; a company of one of them only
    keeps its value; for a company of both, the value is the total of A
    with the amounts of B added one at a time in input order.  The
    aggregate of A ++ B is the per-company sum of the two aggregates
    whenever no company occurs twice in B. *)
Theorem aggregate_concat A B :
  numeric A -> numeric B ->
  exists ma mb mab,
    agent_2_aggregate_data A = Ok ma /\
    agent_2_aggregate_data B = Ok mb /\
    agent_2_aggregate_data (A ++ B) = Ok mab /\
    dom mab = dom ma ∪ dom mb /\
    (forall c,
       mab !! c =
       match ma !! c with
       | Some t => Some (fold_left PyFloat.add (company_amounts c B) t)
       | None => mb !! c
       end) /\
    (NoDup (company_name <$> B) -> mab = sum_maps ma mb).
Proof.
  intros HA HB.
  destruct (agent_2_ok A HA) as (ma & Hma & Hla).
  destruct (agent_2_ok B HB) as (mb & Hmb & Hlb).
  destruct (aggregate_loop_ok B HB ma) as (mab & Hmab & Hlab).
  assert (Hentry : forall c,
             mab !! c =
             match ma !! c with
             | Some t => Some (fold_left PyFloat.add (company_amounts c B) t)
             | None => mb !! c
             end).
  { intros c. rewrite Hlab, Hlb. destruct (ma !! c) as [t|].
    - apply running_total_some.
    - apply running_total_none. }
  exists ma, mb, mab. repeat split; try assumption.
  - unfold agent_2_aggregate_data in *. rewrite aggregate_loop_app, Hma.
    exact Hmab.
  - apply set_eq. intros c.
    rewrite elem_of_union, !elem_of_dom, Hentry.
    destruct (ma !! c) as [t|]; split; eauto.
    intros [[? ?]|H]; [discriminate | exact H].
  - intros Hnd. apply map_eq. intros c.
    unfold sum_maps. rewrite lookup_union_with, Hentry, Hlb.
    destruct (company_amounts_NoDup c B Hnd) as [->|[x ->]];
      destruct (ma !! c); reflexivity.
Qed.

Lemma aggregate_concat_witness :
  exists ma mb mab,
    agent_2_aggregate_data batch_a = Ok ma /\
    agent_2_aggregate_data scenario_records = Ok mb /\
    agent_2_aggregate_data (batch_a ++ scenario_records) = Ok mab /\
    dom mab = dom ma ∪ dom mb.
Proof.
  destruct (aggregate_concat batch_a scenario_records
              (proj1 numeric_batches) numeric_scenario)
    as (ma & mb & mab & Ha & Hb & Hab & Hdom & _).
  exists ma, mb, mab. repeat split; assumption.
Defined.

Lemma agent_2_outcome rs :
  (numeric rs /\ exists m, agent_2_aggregate_data rs = Ok m) \/
  (Exists (fun r => parses (total_amount r) = false) rs /\
   exists e, agent_2_aggregate_data rs = Raise e).
Proof.
  destruct (agent_2_aggregate_data rs) as [m|e] eqn:H.
  - left. split; [|eauto].
    destruct (numeric_or_not rs) as [Hnum|Hbad]; [exact Hnum|].
    exfalso. revert H. unfold agent_2_aggregate_data. generalize (∅ : gmap string float).
    induction Hbad as [r rs Hr|r rs _ IH]; intros m0; simpl.
    + unfold parses in Hr.
      destruct (PyFloat.of_str (total_amount r)); [discriminate|]. discriminate.
    + destruct (PyFloat.of_str (total_amount r)); [apply IH | discriminate].
  - right. split; [|eauto]. eapply aggregate_loop_raise. exact H.
Qed.

Lemma numeric_not_Exists rs :
  numeric rs -> Exists (fun r => parses (total_amount r) = false) rs -> False.
Proof.
  intros Hnum Hbad. apply Exists_exists in Hbad as (r & Hin & Hr).
  unfold numeric in Hnum. rewrite Forall_forall in Hnum.
  specialize (Hnum r Hin). congruence.
Qed.

(** C8, as stated, fails for the tool [aggregate_data]: on a record with
    the amount "abc" it raises nothing, its handler turns the error of
    [float] into the returned message. *)
Lemma aggregate_error_counterexample :
  Exists (fun r => parses (total_amount r) = false) corrupt_records /\
  aggregate_data corrupt_records = Ok (ErrorAggregating (ValueError "abc")) /\
  ~ (exists e, aggregate_data corrupt_records = Raise e).
Proof.
  split; [apply Exists_cons_tl, Exists_cons_hd; reflexivity|].
  split; [reflexivity|]. intros [e H]. discriminate H.
Qed.

(** C8, amended. The method [agent_2_aggregate_data] raises an error, which
    reaches its caller, if and only if [float] rejects the amount of some
    record, and it returns a map if and only if every amount is numeric:
    no amount is skipped or coerced, and no map is produced beside an
    error.  The tool [aggregate_data] never raises: it returns the JSON of
    that map, or the error message in place of the error. *)
Theorem aggregate_error rs :
  ((exists e, agent_2_aggregate_data rs = Raise e) <->
   Exists (fun r => parses (total_amount r) = false) rs) /\
  ((exists m, agent_2_aggregate_data rs = Ok m) <-> numeric rs) /\
  (forall e, agent_2_aggregate_data rs = Raise e ->
     aggregate_data rs = Ok (ErrorAggregating e)) /\
  (forall m, agent_2_aggregate_data rs = Ok m ->
     aggregate_data rs = Ok (JsonDump m)).
Proof.
  repeat split.
  - intros [e He].
    destruct (agent_2_outcome rs) as [[_ [m Hm]]|[Hbad _]]; [congruence | exact Hbad].
  - intros Hbad.
    destruct (agent_2_outcome rs) as [[Hnum _]|[_ He]]; [|exact He].
    destruct (numeric_not_Exists rs Hnum Hbad).
  - intros [m Hm].
    destruct (agent_2_outcome rs) as [[Hnum _]|[_ [e He]]]; [exact Hnum | congruence].
  - intros Hnum.
    destruct (agent_2_outcome rs) as [[_ Hm]|[Hbad _]]; [exact Hm|].
    destruct (numeric_not_Exists rs Hnum Hbad).
  - intros e He. rewrite aggregate_data_of_agent_2, He. reflexivity.
  - intros m Hm. rewrite aggregate_data_of_agent_2, Hm. reflexivity.
Qed.

Lemma aggregate_error_witness :
  (exists e, agent_2_aggregate_data corrupt_records = Raise e) /\
  aggregate_data corrupt_records = Ok (ErrorAggregating (ValueError "abc")).
Proof.
  destruct (aggregate_error corrupt_records) as (Hraise & _ & Htool & _).
  split.
  - apply Hraise. apply Exists_cons_tl, Exists_cons_hd. reflexivity.
  - apply Htool. reflexivity.
Defined.

End AggregatorClaims.

(** ** Facts about strings *)

Module StrFacts.

Import Str.

Lemma append_nil (b : string) : "" ++ b = b.
Proof. reflexivity. Qed.

Lemma append_cons c (a b : string) : String c a ++ b = String c (a ++ b).
Proof. reflexivity. Qed.

Lemma append_nil_r (a : string) : a ++ "" = a.
Proof. induction a as [|c a IH]; [reflexivity|]. by rewrite append_cons, IH. Qed.

Ltac sapp := rewrite ?append_cons, ?append_nil in *.

Lemma prefix_app p s : String.prefix p s = true <-> exists b, s = p ++ b.
Proof.
  revert p. induction s as [|d s IH]; intros [|c p]; simpl.
  - split; [intros _; by exists "" | reflexivity].
  - split; [discriminate | intros [b Hb]; discriminate].
  - split; [intros _; by exists (String d s) | reflexivity].
  - destruct (ascii_dec c d) as [->|Hne].
    + rewrite IH. split; intros [b Hb]; exists b; sapp; congruence.
    + split; [discriminate | intros [b Hb]; sapp; congruence].
Qed.

Lemma contains_nil p : contains p "" = String.prefix p "".
Proof. simpl. apply orb_false_r. Qed.

Lemma contains_cons p d s :
  contains p (String d s) = String.prefix p (String d s) || contains p s.
Proof. reflexivity. Qed.

(** [p in s] holds exactly when [s] is some text, [p], and some text. *)
Lemma contains_app p s :
  contains p s = true <-> exists a b, s = a ++ p ++ b.
Proof.
  induction s as [|d s IH].
  - rewrite contains_nil, prefix_app. split.
    + intros [b Hb]. exists "", b. exact Hb.
    + intros (a & b & H). destruct a; [exists b; exact H | discriminate].
  - rewrite contains_cons, orb_true_iff, prefix_app, IH. split.
    + intros [[b Hb]|(a & b & H)].
      * exists "", b. exact Hb.
      * exists (String d a), b. sapp. congruence.
    + intros (a & b & H). destruct a as [|d' a]; sapp.
      * left. exists b. exact H.
      * right. exists a, b. congruence.
Qed.

Lemma append_assoc (a b c : string) : (a ++ b) ++ c = a ++ b ++ c.
Proof. induction a as [|d a IH]; sapp; congruence. Qed.

Lemma contains_trans p q s :
  contains p q = true -> contains q s = true -> contains p s = true.
Proof.
  rewrite !contains_app. intros (a & b & ->) (a' & b' & ->).
  exists (a' ++ a), (b ++ b'). by rewrite !append_assoc.
Qed.

Lemma upper_app a b : upper (a ++ b) = upper a ++ upper b.
Proof. induction a as [|d a IH]; sapp; simpl; sapp; congruence. Qed.

Lemma isspace_upper c : Char.isspace (Char.upper c) = Char.isspace c.
Proof. destruct c as [[] [] [] [] [] [] [] []]; reflexivity. Qed.

Lemma is_empty_upper s : is_empty (upper s) = is_empty s.
Proof. destruct s; reflexivity. Qed.

Lemma upper_lstrip s : upper (lstrip s) = lstrip (upper s).
Proof.
  induction s as [|c s IH]; simpl; [reflexivity|].
  rewrite isspace_upper. destruct (Char.isspace c); [exact IH | reflexivity].
Qed.

Lemma upper_rstrip s : upper (rstrip s) = rstrip (upper s).
Proof.
  induction s as [|c s IH]; simpl; [reflexivity|].
  rewrite isspace_upper, <- IH, is_empty_upper.
  destruct (Char.isspace c && is_empty (rstrip s)); reflexivity.
Qed.

Lemma upper_strip s : upper (strip s) = strip (upper s).
Proof. unfold strip. by rewrite upper_rstrip, upper_lstrip. Qed.

Lemma is_empty_true s : is_empty s = true <-> s = "".
Proof. destruct s; simpl; split; congruence. Qed.

Lemma is_empty_app a b : is_empty (a ++ b) = is_empty a && is_empty b.
Proof. destruct a; reflexivity. Qed.

(** Stripping the right end of two joined texts. *)
Lemma rstrip_app x y :
  rstrip (x ++ y) = if is_empty (rstrip y) then rstrip x else x ++ rstrip y.
Proof.
  induction x as [|c x IH]; sapp; simpl.
  - destruct (rstrip y); reflexivity.
  - rewrite IH. destruct (is_empty (rstrip y)) eqn:Hy; [reflexivity|].
    rewrite is_empty_app, Hy, andb_false_r, andb_false_r. by sapp.
Qed.

Lemma lstrip_app_fixed a p b :
  lstrip p = p -> p <> "" -> exists a', lstrip (a ++ p ++ b) = a' ++ p ++ b.
Proof.
  intros Hp Hne. induction a as [|c a IH]; sapp; simpl.
  - exists "". destruct p as [|d p]; [congruence|]. sapp. simpl in *.
    destruct (Char.isspace d) eqn:Hd; [|reflexivity].
    exfalso. assert (Hlen : String.length (lstrip p) <= String.length p).
    { clear. induction p as [|e p IH]; simpl; [lia|].
      destruct (Char.isspace e); simpl; lia. }
    rewrite Hp in Hlen. simpl in Hlen. lia.
  - destruct (Char.isspace c); [exact IH|]. by exists (String c a).
Qed.

(** A text without whitespace at either end that occurs in [s] occurs in
    [s.strip()]. *)
Lemma contains_strip p s :
  lstrip p = p -> rstrip p = p -> p <> "" ->
  contains p s = true -> contains p (strip s) = true.
Proof.
  intros Hl Hr Hne. rewrite !contains_app. intros (a & b & ->).
  destruct (lstrip_app_fixed a p b Hl Hne) as [a' Ha'].
  unfold strip. rewrite Ha'.
  assert (Hpb : exists b', rstrip (p ++ b) = p ++ b').
  { rewrite rstrip_app. destruct (is_empty (rstrip b)).
    - exists "". by rewrite Hr, append_nil_r.
    - eauto. }
  destruct Hpb as [b' Hb']. exists a', b'.
  rewrite rstrip_app, Hb'.
  destruct (is_empty (p ++ b')) eqn:He; [|reflexivity].
  rewrite is_empty_app in He. apply andb_true_iff in He as [He _].
  apply is_empty_true in He. contradiction.
Qed.

Lemma truthy_upper s : truthy (upper s) = truthy s.
Proof. unfold truthy. by rewrite is_empty_upper. Qed.

Lemma truthy_app_l a b : truthy a = true -> truthy (a ++ b) = true.
Proof. destruct a; [discriminate | reflexivity]. Qed.

Lemma truthy_len s : (0 < len s)%nat -> truthy s = true.
Proof. destruct s; simpl; [lia | reflexivity]. Qed.

End StrFacts.

(** ** Facts about the extractor *)

Section Extractor.

Import Str StrFacts.

Implicit Types (line raw content filename name : string).
Implicit Types (lines pre post : list string).

Lemma first_result_skip rule pre lines :
  Forall (fun l => rule l = None) pre ->
  first_result rule (pre ++ lines) = first_result rule lines.
Proof.
  induction 1 as [|l pre Hl _ IH]; [reflexivity|].
  simpl. by rewrite Hl.
Qed.

Lemma first_result_none rule lines :
  Forall (fun l => rule l = None) lines -> first_result rule lines = None.
Proof.
  intros H. rewrite <- (app_nil_r lines). by rewrite first_result_skip.
Qed.

Lemma first_result_hit rule pre line post name :
  Forall (fun l => rule l = None) pre -> rule line = Some name ->
  first_result rule (pre ++ line :: post) = Some name.
Proof.
  intros Hpre Hline. rewrite first_result_skip by exact Hpre.
  simpl. by rewrite Hline.
Qed.

Lemma take_hit (n : nat) pre line post :
  length pre < n ->
  exists post', take n (pre ++ line :: post) = (pre ++ line :: post')%list.
Proof.
  intros Hlen. rewrite take_app, take_ge by lia.
  destruct (n - length pre) as [|k] eqn:Hk; [lia|].
  by exists (take k post).
Qed.

(** One turn of the first loop is the rule applied to the line. *)
Lemma scan_company_cons raw lines :
  scan_company (raw :: lines) =
  match name_of_line raw with
  | Some name => name
  | None => scan_company lines
  end.
Proof.
  unfold name_of_line, Rule.name_of_line, Rule.skipped, Rule.brand,
    Rule.generic.
  cbn [scan_company]. unfold truthy.
  destruct (is_empty (strip raw)); cbn [negb andb orb]; [reflexivity|].
  destruct (any_in skip_tokens (lower (strip raw))); cbn [negb]; [reflexivity|].
  unfold any_in, brand_tokens. cbn [existsb].
  destruct (contains "STARBUCKS" (upper (strip raw))); cbn [orb]; [reflexivity|].
  destruct (contains "WAL-MART" (upper (strip raw))); cbn [orb]; [reflexivity|].
  destruct (contains "WALMART" (upper (strip raw))); cbn [orb]; [reflexivity|].
  destruct (contains "MCDONALD" (upper (strip raw))); cbn [orb]; [reflexivity|].
  destruct (isalpha (remove "-" (remove " " (strip raw)))
            && (3 <? len (strip raw))%nat); reflexivity.
Qed.

Lemma brand_truthy line name : Rule.brand line = Some name -> truthy name = true.
Proof.
  unfold Rule.brand.
  repeat match goal with
         | |- context [if ?b then _ else _] => destruct b
         end; intros [= <-]; reflexivity.
Qed.

(** A name the rule yields is never the empty text. *)
Lemma name_of_line_truthy raw name :
  name_of_line raw = Some name -> truthy name = true.
Proof.
  unfold name_of_line, Rule.name_of_line, Rule.generic.
  destruct (Rule.skipped (strip raw)); [discriminate|].
  destruct (Rule.brand (strip raw)) as [b|] eqn:Hb.
  - intros [= <-]. eapply brand_truthy. exact Hb.
  - destruct (isalpha _ && (3 <? len (strip raw))%nat) eqn:H; [|discriminate].
    intros [= <-]. apply andb_true_iff in H as [_ H%Nat.ltb_lt].
    rewrite truthy_upper. apply truthy_len. lia.
Qed.

Lemma scan_company_first lines :
  scan_company lines = default "" (first_result name_of_line lines).
Proof.
  induction lines as [|raw lines IH]; [reflexivity|].
  rewrite scan_company_cons. simpl.
  destruct (name_of_line raw); [reflexivity | exact IH].
Qed.

Lemma first_result_truthy lines name :
  first_result name_of_line lines = Some name -> truthy name = true.
Proof.
  induction lines as [|raw lines IH]; [discriminate|]. simpl.
  destruct (name_of_line raw) as [n|] eqn:Hn; [|exact IH].
  intros [= <-]. eapply name_of_line_truthy. exact Hn.
Qed.

(** One turn of the second loop. *)
Lemma scan_total_cons raw lines :
  scan_total (raw :: lines) =
  if total_line raw then Ok (default "" (last (line_amounts raw)))
  else scan_total lines.
Proof.
  unfold total_line, line_amounts. simpl scan_total.
  destruct (is_total_line (upper (strip raw))); [|reflexivity].
  destruct (Re.findall (upper (strip raw))) as [|a l] eqn:Hf; [reflexivity|].
  unfold last_item.
  destruct (last (a :: l)) as [x|] eqn:Hl; [reflexivity|].
  apply last_None in Hl. discriminate.
Qed.

(** The second loop never raises: it ends with the last amount of the
    first total line, or with the empty text. *)
Lemma scan_total_find lines :
  scan_total lines =
  Ok (match List.find total_line lines with
      | Some raw => default "" (last (line_amounts raw))
      | None => ""
      end).
Proof.
  induction lines as [|raw lines IH]; [reflexivity|].
  rewrite scan_total_cons. simpl. destruct (total_line raw); [reflexivity | exact IH].
Qed.

Lemma find_hit pre line post :
  Forall (fun l => total_line l = false) pre -> total_line line = true ->
  List.find total_line (pre ++ line :: post) = Some line.
Proof.
  induction 1 as [|l pre Hl _ IH]; intros Hline; simpl.
  - by rewrite Hline.
  - rewrite Hl. by apply IH.
Qed.

Lemma find_none lines :
  Forall (fun l => total_line l = false) lines ->
  List.find total_line lines = None.
Proof.
  induction 1 as [|l lines Hl _ IH]; [reflexivity|]. simpl. by rewrite Hl.
Qed.

Lemma match_number_truthy s g : Re.match_number s = Some g -> truthy g = true.
Proof.
  unfold Re.match_number.
  destruct (drop_digits s) as [|c rest]; [discriminate|].
  destruct (Ascii.eqb_spec c "."%char) as [->|Hne].
  - destruct (truthy (digits s)) eqn:Hw; simpl.
    + destruct (truthy (digits rest)); intros [= <-]. by apply truthy_app_l.
    + discriminate.
  - destruct c as [[] [] [] [] [] [] [] []]; try discriminate.
    contradiction.
Qed.

Lemma match_here_truthy s g n : Re.match_here s = Some (g, n) -> truthy g = true.
Proof.
  unfold Re.match_here. destruct s as [|c s'].
  - destruct (Re.match_number "") eqn:H; [|discriminate].
    intros [= <- _]. eapply match_number_truthy, H.
  - destruct (Ascii.eqb_spec c "$"%char) as [->|Hne].
    + destruct (Re.match_number s') eqn:H; [|discriminate].
      intros [= <- _]. eapply match_number_truthy, H.
    + assert (Hm : Re.match_here (String c s') =
                   match Re.match_number (String c s') with
                   | Some g => Some (g, String.length g)
                   | None => None
                   end).
      { destruct c as [[] [] [] [] [] [] [] []]; try reflexivity.
        contradiction. }
      unfold Re.match_here in Hm. rewrite Hm.
      destruct (Re.match_number (String c s')) eqn:H; [|discriminate].
      intros [= <- _]. eapply match_number_truthy, H.
Qed.

Lemma findall_from_cons skip c s :
  Re.findall_from skip (String c s) =
  match skip with
  | S k => Re.findall_from k s
  | O =>
      match Re.match_here (String c s) with
      | Some (g, n) => g :: Re.findall_from (pred n) s
      | None => Re.findall_from 0 s
      end
  end.
Proof. reflexivity. Qed.

(** No amount [findall] returns is empty. *)
Lemma findall_truthy s : forall skip,
  Forall (fun a => truthy a = true) (Re.findall_from skip s).
Proof.
  induction s as [|c s IH]; intros skip; [constructor|].
  rewrite findall_from_cons. destruct skip as [|k]; [|apply IH].
  destruct (Re.match_here (String c s)) as [[g n]|] eqn:H; [|apply IH].
  constructor; [eapply match_here_truthy, H | apply IH].
Qed.

Lemma line_amounts_last raw a :
  last (line_amounts raw) = Some a -> truthy a = true.
Proof.
  intros H%last_Some_elem_of. unfold line_amounts, Re.findall in H.
  pose proof (findall_truthy (upper (strip raw)) 0) as Hall.
  rewrite Forall_forall in Hall. apply Hall, H.
Qed.

Lemma strip_cons_space c s :
  Char.isspace c = true -> strip (String c s) = strip s.
Proof. intros H. unfold strip. simpl lstrip. by rewrite H. Qed.

Lemma strip_cons_other c s :
  Char.isspace c = false -> strip (String c s) = String c (rstrip s).
Proof. intros H. unfold strip. simpl lstrip. rewrite H. simpl. by rewrite H. Qed.

Lemma split_lines_cons c s :
  split_lines (String c s) =
  if Ascii.eqb c "010"%char then "" :: split_lines s
  else match split_lines s with
       | l :: ls => String c l :: ls
       | [] => [String c ""]
       end.
Proof. reflexivity. Qed.

Lemma split_lines_inv s : exists l ls, split_lines s = l :: ls.
Proof.
  destruct s as [|c s]; [by exists "", []|].
  rewrite split_lines_cons. destruct (Ascii.eqb c "010"%char); [eauto|].
  destruct (split_lines s); eauto.
Qed.

Lemma visible_lines_cons l ls :
  visible_lines (l :: ls) =
  if truthy (strip l) then strip l :: visible_lines ls else visible_lines ls.
Proof.
  unfold visible_lines. rewrite fmap_cons, filter_cons.
  destruct (truthy (strip l)); [by rewrite decide_True | by rewrite decide_False].
Qed.

Lemma visible_lines_strip l l' ls ls' :
  strip l' = strip l -> visible_lines ls' = visible_lines ls ->
  visible_lines (l' :: ls') = visible_lines (l :: ls).
Proof. intros Hl Hls. by rewrite !visible_lines_cons, Hl, Hls. Qed.

(** A whitespace character in front of a text changes no visible line. *)
Lemma visible_lines_space c s :
  Char.isspace c = true ->
  visible_lines (split_lines (String c s)) = visible_lines (split_lines s).
Proof.
  intros Hc. rewrite split_lines_cons.
  destruct (Ascii.eqb c "010"%char); [reflexivity|].
  destruct (split_lines_inv s) as (l & ls & ->).
  apply visible_lines_strip; [by apply strip_cons_space | reflexivity].
Qed.

Lemma visible_lines_lstrip s :
  visible_lines (split_lines (lstrip s)) = visible_lines (split_lines s).
Proof.
  induction s as [|c s IH]; [reflexivity|]. simpl lstrip.
  destruct (Char.isspace c) eqn:Hc; [|reflexivity].
  by rewrite IH, visible_lines_space.
Qed.

(** The lines of a text stripped on the right and the lines of the text:
    the first lines differ by whitespace on the right at most, the
    others show the same visible lines. *)
Lemma split_lines_rstrip s :
  exists l' ls' l ls,
    split_lines (rstrip s) = l' :: ls' /\ split_lines s = l :: ls /\
    rstrip l' = rstrip l /\ strip l' = strip l /\
    visible_lines ls' = visible_lines ls.
Proof.
  induction s as [|c s (l' & ls' & l & ls & Hr & Hs & Hrl & Hsl & Hv)].
  - by exists "", [], "", [].
  - simpl rstrip. rewrite split_lines_cons, Hs.
    destruct (Char.isspace c && is_empty (rstrip s)) eqn:Hblank.
    + apply andb_true_iff in Hblank as [Hc He]. apply is_empty_true in He.
      rewrite He in Hr. injection Hr as <- <-.
      destruct (Ascii.eqb c "010"%char).
      * exists "", [], "", (l :: ls). repeat split.
        rewrite visible_lines_cons, <- Hsl, <- Hv. reflexivity.
      * exists "", [], (String c l), ls. repeat split; try assumption.
        -- simpl. by rewrite Hc, <- Hrl.
        -- by rewrite strip_cons_space.
    + rewrite split_lines_cons, Hr.
      destruct (Ascii.eqb c "010"%char).
      * exists "", (l' :: ls'), "", (l :: ls). repeat split.
        by apply visible_lines_strip.
      * exists (String c l'), ls', (String c l), ls. repeat split; try assumption.
        -- simpl. by rewrite Hrl.
        -- destruct (Char.isspace c) eqn:Hc.
           ++ by rewrite !strip_cons_space.
           ++ by rewrite !strip_cons_other, Hrl.
Qed.

(** Stripping the text before it is split changes no visible line. *)
Lemma visible_receipt_lines content :
  visible_lines (receipt_lines content) = visible_lines (split_lines content).
Proof.
  unfold receipt_lines, strip.
  destruct (split_lines_rstrip (lstrip content))
    as (l' & ls' & l & ls & -> & Hs & _ & Hsl & Hv).
  rewrite <- visible_lines_lstrip, Hs. by apply visible_lines_strip.
Qed.

Lemma find_total_visible lines :
  strip <$> List.find total_line lines =
  List.find (fun l => is_total_line (upper l)) (visible_lines lines).
Proof.
  induction lines as [|l lines IH]; [reflexivity|].
  rewrite visible_lines_cons. simpl. unfold total_line at 1.
  destruct (truthy (strip l)) eqn:Ht.
  - simpl. destruct (is_total_line (upper (strip l))); [reflexivity | exact IH].
  - destruct (strip l); [exact IH | discriminate].
Qed.

(** The first total line of the raw text and the first total line the
    extractor meets are the same line, up to whitespace around it. *)
Lemma find_total_raw content :
  strip <$> List.find total_line (receipt_lines content) =
  strip <$> List.find total_line (split_lines content).
Proof. by rewrite !find_total_visible, visible_receipt_lines. Qed.

Lemma line_amounts_strip l l' : strip l = strip l' -> line_amounts l = line_amounts l'.
Proof. unfold line_amounts. by intros ->. Qed.

(** The record [_extract_receipt_info] returns, in one equation: the
    function always returns. *)
Lemma extract_eq content filename :
  _extract_receipt_info content filename =
  Ok {| company_name :=
          match first_result name_of_line (take 5 (receipt_lines content)) with
          | Some name => name
          | None => company_from_filename filename
          end;
        total_amount :=
          match List.find total_line (receipt_lines content) with
          | Some raw => default "10.00" (last (line_amounts raw))
          | None => "10.00"
          end |}.
Proof.
  unfold _extract_receipt_info. rewrite scan_total_find, scan_company_first.
  simpl. f_equal. f_equal.
  - destruct (first_result name_of_line (take 5 (receipt_lines content)))
      as [name|] eqn:H; simpl; [|reflexivity].
    by rewrite (first_result_truthy _ _ H).
  - destruct (List.find total_line (receipt_lines content)) as [raw|];
      [|reflexivity].
    destruct (last (line_amounts raw)) as [a|] eqn:H; simpl; [|reflexivity].
    by rewrite (line_amounts_last _ _ H).
Qed.

End Extractor.

(** ** The extractor: claims *)

Section ExtractorClaims.

Import Str StrFacts.

Implicit Types (line raw content filename name : string).
Implicit Types (lines pre post : list string).

Lemma company_of_hit content pre line post name :
  receipt_lines content = (pre ++ line :: post)%list -> length pre < 5 ->
  Forall (fun l => name_of_line l = None) pre ->
  name_of_line line = Some name ->
  first_result name_of_line (take 5 (receipt_lines content)) = Some name.
Proof.
  intros -> Hlen Hpre Hline.
  destruct (take_hit 5 pre line post Hlen) as [post' ->].
  by apply first_result_hit.
Qed.

Lemma find_total_lines content lines :
  text_lines content lines ->
  strip <$> List.find total_line (receipt_lines content) =
  strip <$> List.find total_line lines.
Proof. intros [->| ->]; [apply find_total_raw | reflexivity]. Qed.

(** The total when the first total line of the text is [line]. *)
Lemma total_of_hit content filename lines pre line post :
  text_lines content lines ->
  lines = (pre ++ line :: post)%list ->
  Forall (fun l => total_line l = false) pre ->
  total_line line = true ->
  exists r,
    _extract_receipt_info content filename = Ok r /\
    total_amount r = default "10.00" (last (line_amounts line)).
Proof.
  intros Htext -> Hpre Hline.
  eexists. split; [apply extract_eq|]. simpl.
  pose proof (find_total_lines _ _ Htext) as Hfind.
  rewrite (find_hit _ _ _ Hpre Hline) in Hfind.
  destruct (List.find total_line (receipt_lines content)) as [raw|];
    [|discriminate].
  injection Hfind as Hraw. by rewrite (line_amounts_strip _ _ Hraw).
Qed.

(** The total when the text has no total line. *)
Lemma total_of_none content filename lines :
  text_lines content lines ->
  Forall (fun l => total_line l = false) lines ->
  exists r,
    _extract_receipt_info content filename = Ok r /\
    total_amount r = "10.00".
Proof.
  intros Htext Hnone.
  eexists. split; [apply extract_eq|]. simpl.
  pose proof (find_total_lines _ _ Htext) as Hfind.
  rewrite (find_none _ Hnone) in Hfind.
  by destruct (List.find total_line (receipt_lines content)).
Qed.

Lemma text_lines_raw content : text_lines content (split_lines content).
Proof. by left. Qed.

(** C2, as stated, fails twice.  A separator line has only hyphens, so
    nothing but letters once they are removed, and is longer than 3: the
    claim makes it the company name, the code passes over it, [isalpha]
    being false of the empty text.  And the code scans the first 5 lines of
    the stripped text: after six empty lines the claim finds no name in the
    first 5 lines, the code finds the brand. *)
Lemma company_scan_counterexample :
  (Claimed.company separator_receipt = Some "--------" /\
   _extract_receipt_info separator_receipt "receipt.txt" =
     Ok {| company_name := "STARBUCKS"; total_amount := "4.50" |}) /\
  (Claimed.company late_receipt = None /\
   _extract_receipt_info late_receipt "receipt.txt" =
     Ok {| company_name := "STARBUCKS"; total_amount := "4.50" |}).
Proof. repeat split; vm_compute; reflexivity. Qed.

(** C2, amended. The company name comes from the first 5 lines of the
    text stripped of surrounding whitespace.  A stripped line is passed
    over if it is empty or its lower-cased form contains one of 'date:',
    'time:', 'order:', 'store #', 'transaction'; otherwise a line whose
    upper-cased form contains 'STARBUCKS' yields STARBUCKS, one with
    'WAL-MART' or 'WALMART' yields WALMART, one with 'MCDONALD' yields
    MCDONALDS, and else a line longer than 3 that, spaces and hyphens
    removed, has at least one character and only letters yields itself
    upper-cased.  The name is the result of the first line that yields
    one; when none of the 5 lines does, the name comes from the file
    name. *)
Theorem company_scan content filename :
  exists r,
    _extract_receipt_info content filename = Ok r /\
    (forall pre line post name,
       receipt_lines content = (pre ++ line :: post)%list ->
       length pre < 5 ->
       Forall (fun l => name_of_line l = None) pre ->
       name_of_line line = Some name ->
       company_name r = name) /\
    (Forall (fun l => name_of_line l = None) (take 5 (receipt_lines content)) ->
     company_name r = company_from_filename filename).
Proof.
  eexists. split; [apply extract_eq|]. split.
  - intros pre line post name Hlines Hlen Hpre Hline. simpl.
    by rewrite (company_of_hit _ _ _ _ _ Hlines Hlen Hpre Hline).
  - intros Hnone. simpl. by rewrite first_result_none.
Qed.

Lemma company_scan_witness :
  exists r,
    _extract_receipt_info sample_starbucks_01 "starbucks_01.txt" = Ok r /\
    company_name r = "STARBUCKS".
Proof.
  destruct (company_scan sample_starbucks_01 "starbucks_01.txt")
    as (r & Hr & Hhit & _).
  exists r. split; [exact Hr|].
  apply (Hhit [] "STARBUCKS COFFEE" (tail (receipt_lines sample_starbucks_01))).
  - vm_compute. reflexivity.
  - simpl. lia.
  - constructor.
  - vm_compute. reflexivity.
Defined.

Lemma brand_of_any_in line :
  any_in brand_tokens (upper line) = true ->
  exists name, Rule.brand line = Some name /\
    (name = "STARBUCKS" \/ name = "WALMART" \/ name = "MCDONALDS").
Proof.
  unfold any_in, brand_tokens, Rule.brand. cbn [existsb].
  destruct (contains "STARBUCKS" (upper line)); cbn [orb]; [eauto|].
  destruct (contains "WAL-MART" (upper line)); cbn [orb]; [eauto|].
  destruct (contains "WALMART" (upper line)); cbn [orb]; [eauto|].
  destruct (contains "MCDONALD" (upper line)); cbn [orb]; [eauto 6|].
  discriminate.
Qed.

(** C4, as stated, fails: in the receipt whose first line is the slogan
    "Golden Arches" and whose second line names McDonald's, the brand is in
    the first 5 lines and the name returned is GOLDEN ARCHES. *)
Lemma brand_priority_counterexample :
  (exists line,
     line ∈ take 5 (receipt_lines slogan_receipt) /\
     any_in brand_tokens (upper (strip line)) = true /\
     Rule.brand (strip line) = Some "MCDONALDS") /\
  _extract_receipt_info slogan_receipt "receipt.txt" =
    Ok {| company_name := "GOLDEN ARCHES"; total_amount := "9.45" |}.
Proof.
  split; [|vm_compute; reflexivity].
  exists "McDonald's Restaurant". split; [|split; vm_compute; reflexivity].
  vm_compute. apply list_elem_of_further, list_elem_of_here.
Qed.

(** C4, amended. When a line among the first 5 lines of the stripped text
    carries no metadata token and contains a known-brand substring in its
    upper-cased form, and no earlier line yields a name (none is a brand
    line or a line of letters, spaces and hyphens longer than 3 that is
    not passed over), the company name is the canonical brand of that
    line: STARBUCKS, else WALMART, else MCDONALDS, in this order when the
    line contains several.  An earlier generic line is taken in place of
    the brand. *)
Theorem brand_line_first content filename pre line post :
  receipt_lines content = (pre ++ line :: post)%list ->
  length pre < 5 ->
  Forall (fun l => name_of_line l = None) pre ->
  Rule.skipped (strip line) = false ->
  any_in brand_tokens (upper (strip line)) = true ->
  exists r,
    _extract_receipt_info content filename = Ok r /\
    Rule.brand (strip line) = Some (company_name r) /\
    (company_name r = "STARBUCKS" \/ company_name r = "WALMART"
     \/ company_name r = "MCDONALDS").
Proof.
  intros Hlines Hlen Hpre Hskip Hbrand.
  destruct (brand_of_any_in _ Hbrand) as (name & Hname & Hcases).
  assert (Hline : name_of_line line = Some name).
  { unfold name_of_line, Rule.name_of_line. by rewrite Hskip, Hname. }
  eexists. split; [apply extract_eq|]. simpl.
  rewrite (company_of_hit _ _ _ _ _ Hlines Hlen Hpre Hline). by split.
Qed.

Lemma brand_line_first_witness :
  exists r,
    _extract_receipt_info separator_receipt "receipt.txt" = Ok r /\
    Rule.brand "STARBUCKS COFFEE" = Some (company_name r).
Proof.
  destruct (brand_line_first separator_receipt "receipt.txt"
              ["--------"] "STARBUCKS COFFEE" ["TOTAL: $4.50"])
    as (r & Hr & Hb & _).
  - vm_compute. reflexivity.
  - simpl. lia.
  - repeat constructor.
  - vm_compute. reflexivity.
  - vm_compute. reflexivity.
  - exists r. split; [exact Hr | exact Hb].
Defined.

(** C3. [_extract_receipt_info] goes through all lines of the text in
    order (the lines of the raw text, or the lines the code cuts after
    stripping the text: the outcome is the same) and stops at the first
    line whose upper-cased stripped form contains 'TOTAL:' or starts with
    'TOTAL' and contains '$'; the total is the last of the amounts
    [\$?(\d+\.\d+)] finds in that line (the default "10.00" when it finds
    none), whatever the later lines are.  For the single line
    "Subtotal: $8.75  Tax: $0.70  TOTAL: $9.45" it is "9.45". *)
Theorem total_from_first_total_line content filename lines pre line post :
  text_lines content lines ->
  lines = (pre ++ line :: post)%list ->
  Forall (fun l => total_line l = false) pre ->
  total_line line = true ->
  (exists r,
     _extract_receipt_info content filename = Ok r /\
     total_amount r = default "10.00" (last (line_amounts line)) /\
     (forall amount, last (line_amounts line) = Some amount ->
        total_amount r = amount)) /\
  (line_amounts summary_line = ["8.75"; "0.70"; "9.45"] /\
   exists r,
     _extract_receipt_info summary_line filename = Ok r /\
     total_amount r = "9.45").
Proof.
  intros Htext Hlines Hpre Hline. split.
  - destruct (total_of_hit _ filename _ _ _ _ Htext Hlines Hpre Hline)
      as (r & Hr & Ht).
    exists r. split; [exact Hr|]. split; [exact Ht|].
    intros amount Ha. by rewrite Ht, Ha.
  - split; [vm_compute; reflexivity|].
    eexists. split; [apply extract_eq|]. vm_compute. reflexivity.
Qed.

Lemma total_from_first_total_line_witness :
  exists r,
    _extract_receipt_info separator_receipt "receipt.txt" = Ok r /\
    total_amount r = "4.50".
Proof.
  destruct (total_from_first_total_line separator_receipt "receipt.txt"
              (split_lines separator_receipt)
              ["--------"; "STARBUCKS COFFEE"] "TOTAL: $4.50" [])
    as [(r & Hr & _ & Hlast) _].
  - apply text_lines_raw.
  - vm_compute. reflexivity.
  - repeat constructor.
  - vm_compute. reflexivity.
  - exists r. split; [exact Hr|]. apply Hlast. vm_compute. reflexivity.
Defined.

Lemma subtotal_is_total_line line :
  contains "SUBTOTAL:" (upper line) = true -> total_line line = true.
Proof.
  intros H. unfold total_line, is_total_line. apply orb_true_iff. left.
  rewrite upper_strip.
  apply (contains_trans "TOTAL:" "SUBTOTAL:"); [vm_compute; reflexivity|].
  apply contains_strip; [reflexivity | reflexivity | discriminate | exact H].
Qed.

(** C9, as stated, fails: in the receipt with the lines
    "Total savings $2.00", "Subtotal: $8.75" and "TOTAL: $9.45" the
    subtotal line has a decimal amount and comes before the 'TOTAL:' line,
    and the total returned is 2.00, from the savings line, which starts
    with 'TOTAL' and contains '$'. *)
Lemma subtotal_line_counterexample :
  split_lines savings_receipt =
    ["Total savings $2.00"; "Subtotal: $8.75"; "TOTAL: $9.45"] /\
  contains "Subtotal:" "Subtotal: $8.75" = true /\
  last (line_amounts "Subtotal: $8.75") = Some "8.75" /\
  contains "TOTAL:" "Total savings $2.00" = false /\
  contains "TOTAL:" "TOTAL: $9.45" = true /\
  _extract_receipt_info savings_receipt "walmart_03.txt" =
    Ok {| company_name := "WALMART"; total_amount := "2.00" |}.
Proof. repeat split; vm_compute; reflexivity. Qed.

(** C9, amended. A line containing 'Subtotal:', in any letter case, passes
    the total-line test, since 'SUBTOTAL:' contains 'TOTAL:'.  For every
    raw text in which such a line with a decimal amount comes before the
    'TOTAL:' line and no line before it passes the total-line test, the
    total returned is the last amount of the subtotal line, not the amount
    of the later TOTAL line: the first sample receipt, whose TOTAL line
    reads 15.86, gives its subtotal 14.55. *)
Theorem subtotal_line_taken content filename lines pre line post amount :
  text_lines content lines ->
  lines = (pre ++ line :: post)%list ->
  Forall (fun l => total_line l = false) pre ->
  contains "SUBTOTAL:" (upper line) = true ->
  last (line_amounts line) = Some amount ->
  total_line line = true /\
  (exists r,
     _extract_receipt_info content filename = Ok r /\
     total_amount r = amount) /\
  _extract_receipt_info sample_starbucks_01 "starbucks_01.txt" =
    Ok {| company_name := "STARBUCKS"; total_amount := "14.55" |}.
Proof.
  intros Htext Hlines Hpre Hsub Hlast.
  pose proof (subtotal_is_total_line line Hsub) as Hline.
  split; [exact Hline|]. split; [|vm_compute; reflexivity].
  destruct (total_of_hit _ filename _ _ _ _ Htext Hlines Hpre Hline)
    as (r & Hr & Ht).
  exists r. split; [exact Hr|]. by rewrite Ht, Hlast.
Qed.

Lemma subtotal_line_taken_witness :
  exists r,
    _extract_receipt_info
      "McDonald's Restaurant
Subtotal:                $13.77
Tax:                     $1.10
TOTAL:                  $14.87" "mcdonalds_receipt.txt" = Ok r /\
    total_amount r = "13.77".
Proof.
  destruct (subtotal_line_taken
              "McDonald's Restaurant
Subtotal:                $13.77
Tax:                     $1.10
TOTAL:                  $14.87" "mcdonalds_receipt.txt"
              ["McDonald's Restaurant"; "Subtotal:                $13.77";
               "Tax:                     $1.10";
               "TOTAL:                  $14.87"]
              ["McDonald's Restaurant"] "Subtotal:                $13.77"
              ["Tax:                     $1.10";
               "TOTAL:                  $14.87"] "13.77")
    as (_ & Hr & _).
  - left. vm_compute. reflexivity.
  - reflexivity.
  - repeat constructor.
  - vm_compute. reflexivity.
  - vm_compute. reflexivity.
  - exact Hr.
Defined.

(** C10. The scan for the total stops at the first line that passes the
    total-line test also when the line has no amount of the form
    digits-dot-digits: the total is then the default "10.00", whatever
    the later lines are; 'TOTAL: $15' is such a line. *)
Theorem total_line_without_amount content filename lines pre line post :
  text_lines content lines ->
  lines = (pre ++ line :: post)%list ->
  Forall (fun l => total_line l = false) pre ->
  total_line line = true ->
  line_amounts line = [] ->
  (exists r,
     _extract_receipt_info content filename = Ok r /\
     total_amount r = "10.00") /\
  (total_line "TOTAL: $15" = true /\ line_amounts "TOTAL: $15" = [] /\
   _extract_receipt_info whole_dollar_receipt "receipt.txt" =
     Ok {| company_name := "STARBUCKS"; total_amount := "10.00" |}).
Proof.
  intros Htext Hlines Hpre Hline Hnone. split.
  - destruct (total_of_hit _ filename _ _ _ _ Htext Hlines Hpre Hline)
      as (r & Hr & Ht).
    exists r. split; [exact Hr|]. by rewrite Ht, Hnone.
  - repeat split; vm_compute; reflexivity.
Qed.

Lemma total_line_without_amount_witness :
  exists r,
    _extract_receipt_info whole_dollar_receipt "receipt.txt" = Ok r /\
    total_amount r = "10.00".
Proof.
  destruct (total_line_without_amount whole_dollar_receipt "receipt.txt"
              (split_lines whole_dollar_receipt)
              ["STARBUCKS COFFEE"] "TOTAL: $15" ["TOTAL: $15.86"])
    as [Hr _].
  - apply text_lines_raw.
  - vm_compute. reflexivity.
  - repeat constructor.
  - vm_compute. reflexivity.
  - vm_compute. reflexivity.
  - exact Hr.
Defined.

Lemma contains_mcdonalds_mcd s :
  contains "mcdonalds" s = true -> contains "mcd" s = true.
Proof. apply contains_trans. vm_compute. reflexivity. Qed.

Lemma company_from_filename_cases filename :
  (contains "starbucks" (lower filename) = true ->
   company_from_filename filename = "STARBUCKS") /\
  (contains "starbucks" (lower filename) = false ->
   contains "walmart" (lower filename) = true ->
   company_from_filename filename = "WALMART") /\
  (contains "starbucks" (lower filename) = false ->
   contains "walmart" (lower filename) = false ->
   contains "mcdonalds" (lower filename) = true
   \/ contains "mcd" (lower filename) = true ->
   company_from_filename filename = "MCDONALDS") /\
  (contains "starbucks" (lower filename) = false ->
   contains "walmart" (lower filename) = false ->
   contains "mcd" (lower filename) = false ->
   company_from_filename filename = "UNKNOWN_STORE").
Proof.
  unfold company_from_filename. repeat split.
  - by intros ->.
  - by intros -> ->.
  - intros -> -> [->| ->]; [reflexivity | by rewrite orb_true_r].
  - intros -> -> Hm.
    destruct (contains "mcdonalds" (lower filename)) eqn:Hd.
    + apply contains_mcdonalds_mcd in Hd. congruence.
    + by rewrite Hm.
Qed.

(** C7. [_extract_receipt_info] returns a record for every text and file
    name and raises nothing.  When none of the first 5 lines yields a
    name, the name is read off the lower-cased file name: STARBUCKS if it
    contains 'starbucks', else WALMART if it contains 'walmart', else
    MCDONALDS if it contains 'mcdonalds' or 'mcd', else UNKNOWN_STORE.
    When no line of the text passes the total-line test the total is
    "10.00".  A text with neither, under the file name "unknown.pdf",
    gives UNKNOWN_STORE and "10.00". *)
Theorem extract_always_returns content filename :
  exists r,
    _extract_receipt_info content filename = Ok r /\
    (Forall (fun l => name_of_line l = None) (take 5 (receipt_lines content)) ->
     company_name r = company_from_filename filename /\
     (contains "starbucks" (lower filename) = true ->
      company_name r = "STARBUCKS") /\
     (contains "starbucks" (lower filename) = false ->
      contains "walmart" (lower filename) = true ->
      company_name r = "WALMART") /\
     (contains "starbucks" (lower filename) = false ->
      contains "walmart" (lower filename) = false ->
      contains "mcdonalds" (lower filename) = true
      \/ contains "mcd" (lower filename) = true ->
      company_name r = "MCDONALDS") /\
     (contains "starbucks" (lower filename) = false ->
      contains "walmart" (lower filename) = false ->
      contains "mcd" (lower filename) = false ->
      company_name r = "UNKNOWN_STORE")) /\
    (forall lines,
       text_lines content lines ->
       Forall (fun l => total_line l = false) lines ->
       total_amount r = "10.00") /\
    (forall lines,
       text_lines content lines ->
       Forall (fun l => name_of_line l = None) (take 5 (receipt_lines content)) ->
       Forall (fun l => total_line l = false) lines ->
       _extract_receipt_info content "unknown.pdf" =
         Ok {| company_name := "UNKNOWN_STORE"; total_amount := "10.00" |}).
Proof.
  eexists. split; [apply extract_eq|]. split; [|split].
  - intros Hnone. simpl. rewrite first_result_none by exact Hnone.
    split; [reflexivity|]. apply company_from_filename_cases.
  - intros lines Htext Hnone.
    destruct (total_of_none _ filename _ Htext Hnone) as (r & Hr & Ht).
    rewrite extract_eq in Hr. injection Hr as <-. exact Ht.
  - intros lines Htext Hname Hnone.
    destruct (total_of_none _ "unknown.pdf" _ Htext Hnone) as (r & Hr & Ht).
    rewrite Hr. rewrite extract_eq in Hr. injection Hr as <-.
    simpl in Ht. simpl. rewrite Ht. by rewrite first_result_none.
Qed.

Lemma extract_always_returns_witness :
  _extract_receipt_info blank_receipt "unknown.pdf" =
    Ok {| company_name := "UNKNOWN_STORE"; total_amount := "10.00" |}.
Proof.
  destruct (extract_always_returns blank_receipt "unknown.pdf")
    as (r & _ & _ & _ & Hscenario).
  apply (Hscenario (split_lines blank_receipt)).
  - apply text_lines_raw.
  - repeat constructor.
  - repeat constructor.
Defined.

End ExtractorClaims.

(** ** More facts about strings *)

Module StrMore.

Import Str StrFacts.

Lemma char_upper_idem c : Char.upper (Char.upper c) = Char.upper c.
Proof. destruct c as [[] [] [] [] [] [] [] []]; reflexivity. Qed.

Lemma upper_idem s : upper (upper s) = upper s.
Proof.
  induction s as [|c s IH]; [reflexivity|]. simpl.
  by rewrite char_upper_idem, IH.
Qed.

(** [lstrip] leaves nothing or a text that starts with no whitespace. *)
Lemma lstrip_head s :
  lstrip s = "" \/
  exists c r, lstrip s = String c r /\ Char.isspace c = false.
Proof.
  induction s as [|c s IH]; [by left|]. simpl.
  destruct (Char.isspace c) eqn:Hc; [exact IH | right; eauto].
Qed.

Lemma lstrip_suffix s : exists a, s = a ++ lstrip s.
Proof.
  induction s as [|c s [a IH]]; [by exists ""|]. simpl.
  destruct (Char.isspace c).
  - exists (String c a). rewrite append_cons. congruence.
  - by exists "".
Qed.

Lemma rstrip_prefix s : exists b, s = rstrip s ++ b.
Proof.
  induction s as [|c s [b IH]]; [by exists ""|]. simpl.
  destruct (Char.isspace c && is_empty (rstrip s)).
  - by exists (String c s).
  - exists b. rewrite append_cons. congruence.
Qed.

Lemma rstrip_idem s : rstrip (rstrip s) = rstrip s.
Proof.
  induction s as [|c s IH]; [reflexivity|]. simpl.
  destruct (Char.isspace c && is_empty (rstrip s)) eqn:H; [reflexivity|].
  simpl. by rewrite IH, H.
Qed.

Lemma rstrip_cons_other c r :
  Char.isspace c = false -> rstrip (String c r) = String c (rstrip r).
Proof. intros H. simpl. by rewrite H. Qed.

Lemma strip_idem s : strip (strip s) = strip s.
Proof.
  unfold strip. destruct (lstrip_head s) as [->|(c & r & -> & Hc)];
    [reflexivity|].
  rewrite (rstrip_cons_other _ _ Hc). simpl lstrip. rewrite Hc.
  by rewrite (rstrip_cons_other _ _ Hc), rstrip_idem.
Qed.

(** [s.strip()] is a part of [s]. *)
Lemma contains_strip_self s : contains (strip s) s = true.
Proof.
  apply contains_app. unfold strip.
  destruct (lstrip_suffix s) as [a Ha].
  destruct (rstrip_prefix (lstrip s)) as [b Hb].
  exists a, b. congruence.
Qed.

Lemma contains_tail x c s :
  contains x s = true -> contains x (String c s) = true.
Proof. intros H. rewrite contains_cons, H. apply orb_true_r. Qed.

Lemma contains_prefix x b : contains x (x ++ b) = true.
Proof. apply contains_app. by exists "", b. Qed.

(** The first line of a text starts the text, and the other lines are
    parts of it. *)
Lemma split_lines_parts s :
  exists l ls,
    split_lines s = l :: ls /\ (exists b, s = l ++ b) /\
    Forall (fun x => contains x s = true) ls.
Proof.
  induction s as [|c s (l & ls & Hs & [b Hb] & Hls)].
  - exists "", []. repeat split; [by exists "" | constructor].
  - simpl split_lines. rewrite Hs. destruct (Ascii.eqb c "010"%char).
    + exists "", (l :: ls). repeat split; [by exists (String c s)|].
      constructor.
      * apply contains_tail. rewrite Hb. apply contains_prefix.
      * eapply Forall_impl; [exact Hls|]. intros x. apply contains_tail.
    + exists (String c l), ls. repeat split.
      * exists b. rewrite append_cons. congruence.
      * eapply Forall_impl; [exact Hls|]. intros x. apply contains_tail.
Qed.

(** Every line of a text is a part of the text. *)
Lemma contains_split_lines s line :
  line ∈ split_lines s -> contains line s = true.
Proof.
  destruct (split_lines_parts s) as (l & ls & -> & [b Hb] & Hls).
  intros [->|Hin]%elem_of_cons.
  - rewrite Hb. apply contains_prefix.
  - rewrite Forall_forall in Hls. by apply Hls.
Qed.

End StrMore.

(** ** Facts about amounts *)

Section Amounts.

Import Str StrFacts StrMore.

Lemma digits_drop s : s = digits s ++ drop_digits s.
Proof.
  induction s as [|c s IH]; [reflexivity|]. simpl.
  destruct (Char.isdigit c); [|reflexivity].
  rewrite append_cons. congruence.
Qed.

Lemma all_digits_digits s : all_digits (digits s) = true.
Proof.
  induction s as [|c s IH]; [reflexivity|]. simpl.
  destruct (Char.isdigit c) eqn:Hc; [|reflexivity]. simpl. by rewrite Hc.
Qed.

Lemma digits_all s : all_digits s = true -> digits s = s /\ drop_digits s = "".
Proof.
  induction s as [|c s IH]; [by split|]. simpl.
  intros [Hc Hs]%andb_true_iff. rewrite Hc.
  destruct (IH Hs) as [-> ->]. by split.
Qed.

Lemma digits_app w c r :
  all_digits w = true -> Char.isdigit c = false ->
  digits (w ++ String c r) = w /\ drop_digits (w ++ String c r) = String c r.
Proof.
  intros Hw Hc. induction w as [|d w IH].
  - rewrite append_nil. simpl. by rewrite Hc.
  - simpl in Hw. apply andb_true_iff in Hw as [Hd Hw].
    rewrite append_cons. simpl. rewrite Hd.
    destruct (IH Hw) as [-> ->]. by split.
Qed.

(** The shape of a decimal text. *)
Lemma decimal_text_inv s :
  decimal_text s = true ->
  exists w f,
    s = w ++ "." ++ f /\ all_digits w = true /\ all_digits f = true /\
    truthy w = true /\ truthy f = true.
Proof.
  unfold decimal_text. pose proof (digits_drop s) as Hs.
  destruct (drop_digits s) as [|c f]; [discriminate|].
  destruct (Ascii.eqb_spec c "."%char) as [->|Hne].
  - intros [[Hw Hf]%andb_true_iff Hall]%andb_true_iff.
    exists (digits s), f. repeat split; try assumption.
    apply all_digits_digits.
  - destruct c as [[] [] [] [] [] [] [] []]; try discriminate. contradiction.
Qed.

Lemma plain_app a b : plain (a ++ b) = plain a && plain b.
Proof.
  induction a as [|c a IH]; [reflexivity|].
  rewrite append_cons. simpl. rewrite IH. apply andb_assoc.
Qed.

Lemma plain_digits w : all_digits w = true -> plain w = true.
Proof.
  induction w as [|c w IH]; [reflexivity|]. simpl.
  intros [-> Hw]%andb_true_iff. by apply IH.
Qed.

Lemma decimal_text_plain s : decimal_text s = true -> plain s = true.
Proof.
  intros (w & f & -> & Hw & Hf & _)%decimal_text_inv.
  rewrite !plain_app, (plain_digits _ Hw), (plain_digits _ Hf). reflexivity.
Qed.

(** What [\d+\.\d+] captures at the head of [s] is a decimal text that
    starts [s]. *)
Lemma match_number_spec s g :
  Re.match_number s = Some g ->
  decimal_text g = true /\ exists b, s = g ++ b.
Proof.
  unfold Re.match_number. pose proof (digits_drop s) as Hs.
  destruct (drop_digits s) as [|c rest]; [discriminate|].
  destruct (Ascii.eqb_spec c "."%char) as [->|Hne].
  - destruct (truthy (digits s)) eqn:Hw; [|discriminate]. simpl.
    destruct (truthy (digits rest)) eqn:Hf; [|discriminate].
    intros [= <-].
    change ("." ++ digits rest) with (String "."%char (digits rest)).
    split.
    + unfold decimal_text.
      destruct (digits_app (digits s) "."%char (digits rest)) as [-> ->];
        [apply all_digits_digits | reflexivity |].
      by rewrite Hw, Hf, all_digits_digits.
    + exists (drop_digits rest). rewrite Hs at 1.
      rewrite append_assoc, append_cons. do 2 f_equal. apply digits_drop.
  - destruct c as [[] [] [] [] [] [] [] []]; try discriminate. contradiction.
Qed.

Lemma match_here_spec s g n :
  Re.match_here s = Some (g, n) ->
  decimal_text g = true /\ contains g s = true.
Proof.
  unfold Re.match_here. destruct s as [|c s'].
  - destruct (Re.match_number "") eqn:H; [|discriminate].
    intros [= <- _]. destruct (match_number_spec _ _ H) as [Hd [b Hb]].
    split; [exact Hd|]. rewrite Hb. apply contains_prefix.
  - destruct (Ascii.eqb_spec c "$"%char) as [->|Hne].
    + destruct (Re.match_number s') eqn:H; [|discriminate].
      intros [= <- _]. destruct (match_number_spec _ _ H) as [Hd [b Hb]].
      split; [exact Hd|]. apply contains_tail. rewrite Hb.
      apply contains_prefix.
    + assert (Hm : Re.match_here (String c s') =
                   match Re.match_number (String c s') with
                   | Some g => Some (g, String.length g)
                   | None => None
                   end).
      { destruct c as [[] [] [] [] [] [] [] []]; try reflexivity.
        contradiction. }
      unfold Re.match_here in Hm. rewrite Hm.
      destruct (Re.match_number (String c s')) eqn:H; [|discriminate].
      intros [= <- _]. destruct (match_number_spec _ _ H) as [Hd [b Hb]].
      split; [exact Hd|]. rewrite Hb. apply contains_prefix.
Qed.

Lemma findall_from_spec s : forall skip,
  Forall (fun g => decimal_text g = true /\ contains g s = true)
    (Re.findall_from skip s).
Proof.
  induction s as [|c s IH]; intros skip; [constructor|].
  assert (Htail : forall k,
             Forall (fun g => decimal_text g = true
                              /\ contains g (String c s) = true)
               (Re.findall_from k s)).
  { intros k. eapply Forall_impl; [apply IH|].
    intros g [Hd Hc]. split; [exact Hd | by apply contains_tail]. }
  rewrite findall_from_cons. destruct skip as [|k]; [|apply Htail].
  destruct (Re.match_here (String c s)) as [[g n]|] eqn:H; [|apply Htail].
  constructor; [eapply match_here_spec, H | apply Htail].
Qed.

Lemma char_upper_plain c :
  Char.isdigit (Char.upper c) || Ascii.eqb (Char.upper c) "."%char = true ->
  Char.upper c = c.
Proof.
  destruct c as [[] [] [] [] [] [] [] []]; intros H;
    first [reflexivity | discriminate H].
Qed.

Lemma upper_plain y : plain (upper y) = true -> upper y = y.
Proof.
  induction y as [|c y IH]; [reflexivity|]. simpl.
  intros [Hc Hy]%andb_true_iff.
  by rewrite (char_upper_plain _ Hc), (IH Hy).
Qed.

Lemma upper_split y a rest :
  upper y = a ++ rest ->
  exists y1 y2, y = y1 ++ y2 /\ upper y1 = a /\ upper y2 = rest.
Proof.
  revert y. induction a as [|c a IH]; intros y.
  - rewrite append_nil. intros H. by exists "", y.
  - rewrite append_cons. destruct y as [|d y]; [discriminate|]. simpl.
    intros [= Hd (y1 & y2 & -> & H1 & H2)%IH].
    exists (String d y1), y2. rewrite append_cons. simpl.
    by rewrite Hd, H1, H2.
Qed.

(** A text of digits and dots found in an upper-cased text is in the text
    itself. *)
Lemma contains_upper_plain g y :
  plain g = true -> contains g (upper y) = true -> contains g y = true.
Proof.
  intros Hg (a & b & H)%contains_app.
  apply upper_split in H as (y1 & y2 & -> & _ & H).
  apply upper_split in H as (y3 & y4 & -> & Hy3 & _).
  rewrite <- Hy3 in Hg. rewrite (upper_plain _ Hg) in Hy3. subst y3.
  apply contains_app. eauto.
Qed.

(** An amount found in a line of the receipt is in the receipt. *)
Lemma line_amount_in_text content raw g :
  raw ∈ receipt_lines content -> g ∈ line_amounts raw ->
  decimal_text g = true /\ contains g content = true.
Proof.
  intros Hraw Hg. unfold line_amounts, Re.findall in Hg.
  pose proof (findall_from_spec (upper (strip raw)) 0) as Hall.
  rewrite Forall_forall in Hall. destruct (Hall g Hg) as [Hd Hc].
  split; [exact Hd|].
  apply contains_upper_plain in Hc; [|by apply decimal_text_plain].
  apply (contains_trans _ _ _ Hc).
  apply (contains_trans _ _ _ (contains_strip_self raw)).
  apply (contains_trans _ (strip content)); [|apply contains_strip_self].
  by apply contains_split_lines.
Qed.

Lemma plain_char c :
  Char.isdigit c || Ascii.eqb c "."%char = true ->
  Ascii.eqb c "_"%char = false /\ PyFloat.isspace c = false.
Proof.
  destruct c as [[] [] [] [] [] [] [] []]; intros H;
    first [by split | discriminate H].
Qed.

Lemma underscores_plain s : forall prev,
  plain s = true -> Ascii.eqb prev "_"%char = false ->
  PyFloat.underscores_from prev s = true.
Proof.
  induction s as [|c s IH]; intros prev Hs Hprev; simpl.
  - by rewrite Hprev.
  - simpl in Hs. apply andb_true_iff in Hs as [Hc Hs].
    destruct (plain_char c Hc) as [Hu _].
    rewrite Hu, Hprev. simpl. by apply IH.
Qed.

Lemma remove_plain s : plain s = true -> remove "_"%char s = s.
Proof.
  induction s as [|c s IH]; [reflexivity|]. simpl.
  intros [Hc Hs]%andb_true_iff. destruct (plain_char c Hc) as [-> _].
  by rewrite IH.
Qed.

Lemma float_strip_plain s : plain s = true -> PyFloat.strip s = s.
Proof.
  intros Hs. unfold PyFloat.strip.
  assert (Hl : PyFloat.lstrip s = s).
  { destruct s as [|c s]; [reflexivity|]. simpl in *.
    apply andb_true_iff in Hs as [Hc _].
    by destruct (plain_char c Hc) as [_ ->]. }
  rewrite Hl. induction s as [|c s IH]; [reflexivity|]. simpl in *.
  apply andb_true_iff in Hs as [Hc Hs].
  destruct (plain_char c Hc) as [_ ->]. simpl.
  rewrite IH; [reflexivity | exact Hs|].
  destruct s as [|d s]; [reflexivity|]. simpl in *.
  apply andb_true_iff in Hs as [Hd _].
  by destruct (plain_char d Hd) as [_ ->].
Qed.

(** A text that starts with a digit is read as a number, not as a name
    of a special value. *)
Lemma parse_digit_head c s :
  Char.isdigit c = true ->
  PyFloat.parse (String c s) = PyFloat.parse_number false (String c s).
Proof.
  destruct c as [[] [] [] [] [] [] [] []]; intros H;
    first [discriminate H | reflexivity].
Qed.

(** [float] accepts every decimal text: the value is the binary64 number
    nearest to the decimal number written, with a positive sign. *)
Lemma of_str_decimal w f :
  all_digits w = true -> all_digits f = true ->
  truthy w = true -> truthy f = true ->
  PyFloat.of_str (w ++ "." ++ f) =
  Ok (PyFloat.of_decimal false (PyFloat.digits_value 0 (w ++ f))
        (- Z.of_nat (String.length f))).
Proof.
  intros Hw Hf Htw Htf.
  assert (Hplain : plain (w ++ "." ++ f) = true).
  { rewrite !plain_app, (plain_digits _ Hw), (plain_digits _ Hf). reflexivity. }
  unfold PyFloat.of_str, PyFloat.underscores_ok.
  rewrite (underscores_plain _ _ Hplain) by reflexivity.
  rewrite (remove_plain _ Hplain), (float_strip_plain _ Hplain).
  change ("." ++ f) with (String "."%char f).
  destruct (digits_app w "."%char f Hw eq_refl) as [Hd Hdrop].
  destruct (digits_all f Hf) as [Hdf Hdropf].
  assert (Hparse : PyFloat.parse (w ++ String "."%char f) =
                   PyFloat.parse_number false (w ++ String "."%char f)).
  { destruct w as [|c w]; [discriminate|]. rewrite append_cons.
    apply parse_digit_head. simpl in Hw.
    by apply andb_true_iff in Hw as [-> _]. }
  rewrite Hparse. unfold PyFloat.parse_number.
  rewrite Hd, Hdrop, Hdf, Hdropf, Htw. simpl. reflexivity.
Qed.

Lemma parses_decimal s : decimal_text s = true -> parses s = true.
Proof.
  intros (w & f & -> & Hw & Hf & Htw & Htf)%decimal_text_inv.
  unfold parses. by rewrite of_str_decimal.
Qed.

End Amounts.

(** ** The extractor: further properties *)

Section ExtractorProperties.

Import Str StrFacts StrMore.

Implicit Types (content filename line raw name : string).

Lemma brand_upper line name : Rule.brand line = Some name -> upper name = name.
Proof.
  unfold Rule.brand.
  repeat match goal with
         | |- context [if ?b then _ else _] => destruct b
         end; intros [= <-]; reflexivity.
Qed.

Lemma name_of_line_upper raw name :
  name_of_line raw = Some name -> upper name = name.
Proof.
  unfold name_of_line, Rule.name_of_line, Rule.generic.
  destruct (Rule.skipped (strip raw)); [discriminate|].
  destruct (Rule.brand (strip raw)) as [b|] eqn:Hb.
  - intros [= <-]. eapply brand_upper, Hb.
  - destruct (isalpha _ && (3 <? len (strip raw))%nat); [|discriminate].
    intros [= <-]. apply upper_idem.
Qed.

Lemma first_result_upper lines name :
  first_result name_of_line lines = Some name -> upper name = name.
Proof.
  induction lines as [|raw lines IH]; [discriminate|]. simpl.
  destruct (name_of_line raw) as [n|] eqn:Hn; [|exact IH].
  intros [= <-]. eapply name_of_line_upper, Hn.
Qed.

Lemma company_from_filename_upper filename :
  truthy (company_from_filename filename) = true /\
  upper (company_from_filename filename) = company_from_filename filename.
Proof.
  unfold company_from_filename.
  repeat match goal with
         | |- context [if ?b then _ else _] => destruct b
         end; by split.
Qed.


Lemma find_elem_of lines raw :
  List.find total_line lines = Some raw -> raw ∈ lines.
Proof. intros [H _]%find_some. by apply list_elem_of_In. Qed.

(** X2. The total of every record [_extract_receipt_info] returns is a
    text of digits, a dot and digits, with a digit on either side of the
    dot, and [float] accepts it: a record of the extractor never makes the
    aggregator raise. *)
Theorem total_amount_is_decimal content filename :
  exists r,
    _extract_receipt_info content filename = Ok r /\
    decimal_text (total_amount r) = true /\
    parses (total_amount r) = true.
Proof.
  eexists. split; [apply extract_eq|]. simpl.
  assert (Hd : decimal_text
                 match List.find total_line (receipt_lines content) with
                 | Some raw => default "10.00" (last (line_amounts raw))
                 | None => "10.00"
                 end = true).
  { destruct (List.find total_line (receipt_lines content)) as [raw|] eqn:Hf;
      [|reflexivity].
    destruct (last (line_amounts raw)) as [g|] eqn:Hl; [|reflexivity]. simpl.
    apply last_Some_elem_of in Hl.
    eapply line_amount_in_text; [eapply find_elem_of, Hf | exact Hl]. }
  split; [exact Hd | by apply parses_decimal].
Qed.

(** X3. The extractor invents no amount: the total it returns is the
    default "10.00" or a decimal number written in the receipt text. *)
Theorem total_amount_from_text content filename :
  exists r,
    _extract_receipt_info content filename = Ok r /\
    (total_amount r = "10.00" \/ contains (total_amount r) content = true).
Proof.
  eexists. split; [apply extract_eq|]. simpl.
  destruct (List.find total_line (receipt_lines content)) as [raw|] eqn:Hf;
    [|by left].
  destruct (last (line_amounts raw)) as [g|] eqn:Hl; [|by left]. simpl.
  right. apply last_Some_elem_of in Hl.
  eapply line_amount_in_text; [eapply find_elem_of, Hf | exact Hl].
Qed.

Lemma strip_blank a : strip a = "" -> lstrip a = "" /\ rstrip a = "".
Proof.
  unfold strip. intros H.
  assert (Hl : lstrip a = "").
  { destruct (lstrip_head a) as [Hl|(c & r & Hl & Hc)]; [exact Hl|].
    rewrite Hl, (rstrip_cons_other _ _ Hc) in H. discriminate. }
  split; [exact Hl|]. clear H.
  induction a as [|c a IH]; [reflexivity|]. simpl in *.
  destruct (Char.isspace c); [|discriminate]. by rewrite (IH Hl).
Qed.

Lemma lstrip_app_blank a x : lstrip a = "" -> lstrip (a ++ x) = lstrip x.
Proof.
  induction a as [|c a IH]; [reflexivity|]. rewrite append_cons. simpl.
  destruct (Char.isspace c); [exact IH | discriminate].
Qed.

Lemma lstrip_app_text x b :
  lstrip x <> "" -> lstrip (x ++ b) = lstrip x ++ b.
Proof.
  induction x as [|c x IH]; [by intros []|]. rewrite append_cons. simpl.
  destruct (Char.isspace c); [exact IH | reflexivity].
Qed.

Lemma strip_app_blank a content b :
  strip a = "" -> strip b = "" -> strip (a ++ content ++ b) = strip content.
Proof.
  intros [Ha _]%strip_blank Hb. pose proof Hb as [Hlb Hrb]%strip_blank.
  unfold strip. rewrite (lstrip_app_blank _ _ Ha).
  destruct (lstrip content) as [|c r] eqn:Hc.
  - apply lstrip_app_blank with (x := b) in Hc. by rewrite Hc, Hlb.
  - rewrite lstrip_app_text by (by rewrite Hc).
    by rewrite Hc, rstrip_app, Hrb.
Qed.

(** X4. Whitespace around the receipt text changes nothing: blank lines
    and spaces before and after the text give the same record as the
    text alone. *)
Theorem extract_ignores_outer_whitespace a content b filename :
  strip a = "" -> strip b = "" ->
  _extract_receipt_info (a ++ content ++ b) filename =
  _extract_receipt_info content filename.
Proof.
  intros Ha Hb. unfold _extract_receipt_info, receipt_lines.
  by rewrite (strip_app_blank _ _ _ Ha Hb).
Qed.

Lemma extract_ignores_outer_whitespace_witness :
  _extract_receipt_info late_receipt "receipt.txt" =
  _extract_receipt_info "STARBUCKS COFFEE
TOTAL: $4.50" "receipt.txt".
Proof.
  apply (extract_ignores_outer_whitespace
           "





"
           "STARBUCKS COFFEE
TOTAL: $4.50" ""); reflexivity.
Defined.

End ExtractorProperties.

(** ** The pipeline: further properties *)

Section PipelineProperties.

Import Str StrFacts StrMore.

Implicit Types (files : gmap string string) (names : list string).
Implicit Types (rs : list ReceiptRecord) (filename content : string).

Lemma agent_1_loop_app files names : forall rs,
  agent_1_loop files rs names =
  (rs ++ agent_1_loop files [] names)%list.
Proof.
  induction names as [|filename names IH]; intros rs; simpl.
  - by rewrite app_nil_r.
  - rewrite IH, (IH [_]). by rewrite <- app_assoc.
Qed.

Lemma agent_1_cons files filename names :
  agent_1_extract_data files (filename :: names) =
  match read_and_extract files filename with
  | inr result => result
  | inl _ => fallback_record
  end :: agent_1_extract_data files names.
Proof.
  unfold agent_1_extract_data. simpl. by rewrite agent_1_loop_app.
Qed.

(** X5. [agent_1_extract_data] returns one record per file name, in the
    order of the names, and its loop raises nothing (the write of the
    output file, after the loop, is not modelled): for a file that opens, the
    record [_extract_receipt_info] returns for its text and name; for a
    file that does not open, the record UNKNOWN with the total "0.00". *)
Theorem agent_1_one_record_per_file files names :
  length (agent_1_extract_data files names) = length names /\
  forall i filename,
    names !! i = Some filename ->
    exists r,
      agent_1_extract_data files names !! i = Some r /\
      (files !! receipt_path filename = None -> r = fallback_record) /\
      (forall content,
         files !! receipt_path filename = Some content ->
         _extract_receipt_info content filename = Ok r).
Proof.
  induction names as [|name names [IHlen IH]].
  - split; [reflexivity | intros i filename H; discriminate].
  - rewrite agent_1_cons. split; [simpl; by rewrite IHlen|].
    intros [|i] filename H; simpl in H.
    + injection H as ->. eexists. split; [reflexivity|].
      unfold read_and_extract. split.
      * by intros ->.
      * intros content ->.
        destruct (_extract_receipt_info content filename) as [r|e] eqn:Hr;
          [reflexivity|].
        rewrite extract_eq in Hr. discriminate.
    + apply IH, H.
Qed.

Lemma agent_1_one_record_per_file_witness :
  agent_1_extract_data {[ receipt_path "a.txt" := summary_line ]}
    ["a.txt"; "b.txt"] !! 1 = Some fallback_record.
Proof.
  destruct (agent_1_one_record_per_file
              {[ receipt_path "a.txt" := summary_line ]} ["a.txt"; "b.txt"])
    as [_ H].
  destruct (H 1 "b.txt" eq_refl) as (r & Hr & Hmissing & _).
  rewrite Hr. f_equal. apply Hmissing. reflexivity.
Defined.

Lemma extract_record_facts content filename :
  exists r,
    _extract_receipt_info content filename = Ok r /\
    truthy (company_name r) = true /\
    upper (company_name r) = company_name r /\
    decimal_text (total_amount r) = true.
Proof.
  eexists. split; [apply extract_eq|]. simpl. repeat split.
  - destruct (first_result name_of_line (take 5 (receipt_lines content)))
      as [name|] eqn:H;
      [eapply first_result_truthy, H | apply company_from_filename_upper].
  - destruct (first_result name_of_line (take 5 (receipt_lines content)))
      as [name|] eqn:H;
      [eapply first_result_upper, H | apply company_from_filename_upper].
  - destruct (List.find total_line (receipt_lines content)) as [raw|] eqn:Hf;
      [|reflexivity].
    destruct (last (line_amounts raw)) as [g|] eqn:Hl; [|reflexivity]. simpl.
    apply last_Some_elem_of in Hl.
    eapply line_amount_in_text; [eapply find_elem_of, Hf | exact Hl].
Qed.

(** What holds of every record of the first agent. *)
Lemma agent_1_records files names :
  Forall (fun r => truthy (company_name r) = true
                   /\ upper (company_name r) = company_name r
                   /\ decimal_text (total_amount r) = true)
    (agent_1_extract_data files names).
Proof.
  induction names as [|filename names IH]; [constructor|].
  rewrite agent_1_cons. constructor; [|exact IH].
  unfold read_and_extract.
  destruct (files !! receipt_path filename) as [content|]; [|by repeat split].
  destruct (extract_record_facts content filename) as (r & -> & H). exact H.
Qed.

(** X6. The two agents in a row never raise a conversion error: whatever
    the files hold, and also for files that do not open,
    [agent_2_aggregate_data] returns a map for the records of
    [agent_1_extract_data].  Its keys are the
    company names of these records, each non-empty and upper-case, and it
    is empty only when no file name was given. *)
Theorem pipeline_never_raises files names :
  numeric (agent_1_extract_data files names) /\
  exists m,
    agent_2_aggregate_data (agent_1_extract_data files names) = Ok m /\
    (forall c,
       is_Some (m !! c) <->
       c ∈ company_name <$> agent_1_extract_data files names) /\
    (forall c, is_Some (m !! c) -> truthy c = true /\ upper c = c) /\
    (m = ∅ <-> names = []).
Proof.
  pose proof (agent_1_records files names) as Hall.
  assert (Hnum : numeric (agent_1_extract_data files names)).
  { unfold numeric. eapply Forall_impl; [exact Hall|].
    intros r (_ & _ & Hd). by apply parses_decimal. }
  split; [exact Hnum|].
  destruct (agent_2_ok _ Hnum) as (m & Hm & Hlook).
  assert (Hkeys : forall c,
             is_Some (m !! c) <->
             c ∈ company_name <$> agent_1_extract_data files names).
  { intros c. rewrite Hlook, float_sum_is_Some.
    rewrite company_amounts_nil by exact Hnum.
    destruct (decide (c ∈ company_name <$> agent_1_extract_data files names));
      tauto. }
  exists m. repeat split; try apply Hkeys; try assumption.
  - apply Hkeys in H. apply list_elem_of_fmap in H as (r & -> & Hr).
    rewrite Forall_forall in Hall. by destruct (Hall r Hr) as (? & _).
  - apply Hkeys in H. apply list_elem_of_fmap in H as (r & -> & Hr).
    rewrite Forall_forall in Hall. by destruct (Hall r Hr) as (_ & ? & _).
  - intros ->. destruct names as [|filename names]; [reflexivity|].
    rewrite agent_1_cons in Hkeys. exfalso.
    eapply (lookup_empty_is_Some (M := gmap string)). apply Hkeys. left.
  - intros ->. unfold agent_1_extract_data, agent_2_aggregate_data in Hm.
    simpl in Hm. by injection Hm.
Qed.




End PipelineProperties.

(** ** The aggregator: further properties *)

Section AggregatorProperties.

Implicit Types (m : gmap string float) (rs pre post : list ReceiptRecord).
Implicit Types (r : ReceiptRecord) (c : string).

Lemma of_str_rejects text :
  parses text = false -> PyFloat.of_str text = Raise (ValueError text).
Proof.
  unfold parses, PyFloat.of_str.
  destruct (PyFloat.underscores_ok text); [|reflexivity].
  destruct (PyFloat.parse _); [discriminate | reflexivity].
Qed.

(** X8. The error of the aggregation names the first amount that is no
    number: when the records before [r] are numeric and the amount of [r]
    is not, [agent_2_aggregate_data] raises the [ValueError] of that text
    and the tool [aggregate_data] returns the message of that same error,
    whatever the records after [r] are. *)
Theorem aggregate_first_error pre r post :
  numeric pre -> parses (total_amount r) = false ->
  agent_2_aggregate_data (pre ++ r :: post) =
    Raise (ValueError (total_amount r)) /\
  aggregate_data (pre ++ r :: post) =
    Ok (ErrorAggregating (ValueError (total_amount r))).
Proof.
  intros Hpre Hr.
  assert (H : agent_2_aggregate_data (pre ++ r :: post) =
              Raise (ValueError (total_amount r))).
  { unfold agent_2_aggregate_data. rewrite aggregate_loop_app.
    destruct (aggregate_loop_ok pre Hpre ∅) as (m & -> & _).
    simpl. by rewrite (of_str_rejects _ Hr). }
  split; [exact H|]. by rewrite aggregate_data_of_agent_2, H.
Qed.

Lemma aggregate_first_error_witness :
  agent_2_aggregate_data corrupt_records = Raise (ValueError "abc").
Proof.
  apply (aggregate_first_error [mk "STARBUCKS" "15.50"] (mk "WALMART" "abc") []).
  - repeat constructor.
  - reflexivity.
Defined.

(** X9. One more record changes the entry of its company only: the
    aggregate of the records followed by [r] has, at the company of [r],
    the old total plus the amount of [r] (the amount itself for a new
    company), and at every other company the entry it had. *)
Theorem aggregate_one_more_record rs r x :
  numeric rs -> PyFloat.of_str (total_amount r) = Ok x ->
  exists m m',
    agent_2_aggregate_data rs = Ok m /\
    agent_2_aggregate_data (rs ++ [r]) = Ok m' /\
    m' !! company_name r =
      Some (match m !! company_name r with
            | Some total => PyFloat.add total x
            | None => x
            end) /\
    (forall c, c <> company_name r -> m' !! c = m !! c).
Proof.
  intros Hnum Hx.
  destruct (aggregate_loop_ok rs Hnum ∅) as (m & Hm & _).
  exists m, (add_amount m (company_name r) x). repeat split.
  - exact Hm.
  - unfold agent_2_aggregate_data. rewrite aggregate_loop_app, Hm.
    simpl. by rewrite Hx.
  - rewrite add_amount_lookup, decide_True by reflexivity.
    by destruct (m !! company_name r).
  - intros c Hc. by rewrite add_amount_lookup, decide_False.
Qed.

Lemma aggregate_one_more_record_witness :
  exists m m',
    agent_2_aggregate_data scenario_records = Ok m /\
    agent_2_aggregate_data (scenario_records ++ [mk "TARGET" "23.80"]) = Ok m' /\
    m' !! "STARBUCKS" = m !! "STARBUCKS".
Proof.
  destruct (PyFloat.of_str "23.80") as [x|e] eqn:Hx; [|discriminate Hx].
  destruct (aggregate_one_more_record scenario_records (mk "TARGET" "23.80") x
              numeric_scenario Hx)
    as (m & m' & Hm & Hm' & _ & Hframe).
  exists m, m'. repeat split; [exact Hm | exact Hm' |].
  apply Hframe. discriminate.
Defined.

Lemma add_amount_dom m c x : dom (add_amount m c x) = {[ c ]} ∪ dom m.
Proof.
  unfold add_amount. destruct (m !! c); by rewrite dom_insert_L.
Qed.

Lemma aggregate_loop_dom rs : forall m m',
  aggregate_loop m rs = Ok m' ->
  dom m' = dom m ∪ list_to_set (company_name <$> rs).
Proof.
  induction rs as [|r rs IH]; intros m m'; simpl.
  - intros [= <-]. symmetry. apply (right_id_L (∅ : gset string) (∪)).
  - destruct (PyFloat.of_str (total_amount r)) as [x|e]; [|discriminate].
    simpl. intros H%IH. rewrite H, add_amount_dom.
    by rewrite (comm_L _ {[company_name r]}), (assoc_L _).
Qed.

Lemma size_list_to_set_le (l : list string) :
  size (list_to_set l : gset string) <= length l.
Proof.
  induction l as [|a l IH].
  - by rewrite list_to_set_nil, size_empty.
  - rewrite list_to_set_cons, size_union_alt, size_singleton. simpl.
    pose proof (subseteq_size (list_to_set l ∖ {[a]})
                  (list_to_set l : gset string)) as Hs.
    assert (Hsub : (list_to_set l ∖ {[a]} : gset string) ⊆ list_to_set l)
      by by apply subseteq_difference_l.
    specialize (Hs Hsub). lia.
Qed.

(** X10. The aggregate has at most one entry per record, and exactly one
    per record when no two records name the same company. *)
Theorem aggregate_size rs m :
  agent_2_aggregate_data rs = Ok m ->
  size m <= length rs /\
  (NoDup (company_name <$> rs) -> size m = length rs).
Proof.
  intros H%aggregate_loop_dom.
  rewrite dom_empty_L, (left_id_L (∅ : gset string) (∪)) in H.
  rewrite <- size_dom, H. split.
  - rewrite <- (length_fmap company_name rs). apply size_list_to_set_le.
  - intros Hnd. by rewrite size_list_to_set, length_fmap.
Qed.

Lemma aggregate_size_witness :
  exists m, agent_2_aggregate_data scenario_records = Ok m /\ size m <= 5.
Proof.
  eexists. split; [reflexivity|].
  apply (aggregate_size scenario_records). reflexivity.
Defined.

(** X11. The tool [aggregate_data] meets the expectation [test_script.py]
    states for its sample records: five companies, with the totals 37.50,
    15.25, 45.60, 23.80 and 18.90. *)
Theorem aggregate_meets_test_expectation :
  exists m,
    aggregate_data sample_extracted_data = Ok (JsonDump m) /\
    size m = length expected_totals /\
    Forall (fun expected => m !! expected.1 = lit expected.2) expected_totals.
Proof.
  eexists. split; [reflexivity|]. split; [vm_compute; reflexivity|].
  repeat constructor.
Qed.

End AggregatorProperties.

(** ** The tools: properties *)

Section ToolProperties.

Import Str StrFacts StrMore Tools.

Implicit Types (nodes : gmap string node) (entries names : list string).
Implicit Types (pdfs : gmap string pdf) (path pdf_path directory f : string).

Lemma endswith_nil suffix : endswith "" suffix = String.eqb "" suffix.
Proof. unfold endswith. apply orb_false_r. Qed.

Lemma endswith_cons c s suffix :
  endswith (String c s) suffix =
  String.eqb (String c s) suffix || endswith s suffix.
Proof. reflexivity. Qed.

Lemma endswith_app s suffix :
  endswith s suffix = true <-> exists a, s = a ++ suffix.
Proof.
  induction s as [|c s IH].
  - rewrite endswith_nil, String.eqb_eq. split.
    + intros <-. by exists "".
    + intros [[|d a] H]; [by rewrite append_nil in H|].
      rewrite append_cons in H. discriminate.
  - rewrite endswith_cons, orb_true_iff, String.eqb_eq, IH. split.
    + intros [<-|[a ->]]; [by exists ""|].
      exists (String c a). by rewrite append_cons.
    + intros [[|d a] H].
      * left. by rewrite append_nil in H.
      * right. rewrite append_cons in H. injection H as _ ->. by exists a.
Qed.

Lemma lower_app a b : lower (a ++ b) = lower a ++ lower b.
Proof.
  induction a as [|c a IH]; [reflexivity|].
  rewrite append_cons. simpl. by rewrite IH, append_cons.
Qed.

Lemma endswith_pdf_lower f :
  endswith f ".pdf" = true -> endswith (lower f) ".pdf" = true.
Proof.
  rewrite !endswith_app. intros [a ->]. exists (lower a).
  by rewrite lower_app.
Qed.

Lemma filter_weaken (P Q : string -> bool) entries :
  (forall f, P f = true -> Q f = true) ->
  sublist (filter (fun f => P f = true) entries)
    (filter (fun f => Q f = true) entries).
Proof.
  intros HPQ. induction entries as [|f entries IH]; [constructor|].
  rewrite !filter_cons.
  destruct (decide (P f = true)) as [HP|HP].
  - rewrite decide_True by by apply HPQ. by constructor.
  - destruct (decide (Q f = true)); [by constructor | exact IH].
Qed.

(** X12. For a directory, [list_pdf_files] lists the entries whose name
    ends in ".pdf" in any letter case, each once per entry and in the
    order of the directory.  The files [test_full_system] looks for, with
    the suffix in lower case only, are among them, in the same order; the
    converse fails, for "scan.PDF". *)
Theorem list_pdf_files_names nodes directory entries :
  nodes !! directory = Some (Directory entries) ->
  exists names,
    list_pdf_files nodes directory = PdfFiles names /\
    sublist names entries /\
    (forall f,
       f ∈ names <-> f ∈ entries /\ endswith (lower f) ".pdf" = true) /\
    sublist (test_pdf_files entries) names /\
    (entries = ["scan.PDF"] ->
     names = ["scan.PDF"] /\ test_pdf_files entries = []).
Proof.
  intros Hdir. unfold list_pdf_files. rewrite Hdir.
  eexists. split; [reflexivity|].
  split; [apply sublist_filter|].
  split; [intros f; rewrite list_elem_of_filter; tauto|].
  split.
  - apply (filter_weaken (fun f => endswith f ".pdf")
             (fun f => endswith (lower f) ".pdf")).
    apply endswith_pdf_lower.
  - by intros ->.
Qed.

Lemma list_pdf_files_names_witness :
  exists names,
    list_pdf_files {[ "./receipt_pdfs" := Directory ["a.pdf"; "b.txt"; "C.Pdf"] ]}
      "./receipt_pdfs" = PdfFiles names /\
    sublist (test_pdf_files ["a.pdf"; "b.txt"; "C.Pdf"]) names.
Proof.
  destruct (list_pdf_files_names
              {[ "./receipt_pdfs" := Directory ["a.pdf"; "b.txt"; "C.Pdf"] ]}
              "./receipt_pdfs" ["a.pdf"; "b.txt"; "C.Pdf"])
    as (names & Hn & _ & _ & Hsub & _).
  - reflexivity.
  - exists names. by split.
Defined.

Lemma startswith_app s p : startswith s p = true <-> exists b, s = p ++ b.
Proof. apply prefix_app. Qed.

Lemma full_path_relative pdf_path :
  startswith pdf_path "./receipt_pdfs/" = false ->
  isabs pdf_path = false ->
  full_path pdf_path = "./receipt_pdfs/" ++ pdf_path.
Proof.
  intros Hp Ha. unfold full_path, join. by rewrite Hp, Ha.
Qed.

(** X13. The path [extract_text_from_pdf] opens is the argument itself
    when it is absolute or starts with "./receipt_pdfs/", and the argument
    under "./receipt_pdfs/" in every other case: the path opened always
    starts with "./receipt_pdfs/" or with "/", resolving a resolved path
    changes nothing, and a bare file name and the same name under
    "./receipt_pdfs/" open the same file.  An argument that names the
    directory without the leading "./", as "receipt_pdfs/a.pdf" does, is
    put under the directory a second time. *)
Theorem full_path_resolution pdf_path :
  (startswith (full_path pdf_path) "./receipt_pdfs/" = true
   \/ isabs (full_path pdf_path) = true) /\
  full_path (full_path pdf_path) = full_path pdf_path /\
  (startswith pdf_path "./receipt_pdfs/" = false ->
   isabs pdf_path = false ->
   full_path pdf_path = "./receipt_pdfs/" ++ pdf_path /\
   full_path ("./receipt_pdfs/" ++ pdf_path) = full_path pdf_path) /\
  full_path "receipt_pdfs/a.pdf" = "./receipt_pdfs/receipt_pdfs/a.pdf".
Proof.
  assert (Hpre : forall p, startswith ("./receipt_pdfs/" ++ p)
                             "./receipt_pdfs/" = true).
  { intros p. apply startswith_app. by exists p. }
  assert (Hfix : forall p, full_path ("./receipt_pdfs/" ++ p) =
                           "./receipt_pdfs/" ++ p).
  { intros p. unfold full_path. by rewrite Hpre. }
  destruct (startswith pdf_path "./receipt_pdfs/") eqn:Hp.
  - assert (Hid : full_path pdf_path = pdf_path)
      by (unfold full_path; by rewrite Hp).
    rewrite !Hid, Hp.
    split; [by left|]. split; [reflexivity|].
    split; [discriminate | reflexivity].
  - destruct (isabs pdf_path) eqn:Ha.
    + assert (Hid : full_path pdf_path = pdf_path)
        by (unfold full_path; by rewrite Hp, Ha).
      rewrite !Hid, Ha.
      split; [by right|]. split; [reflexivity|].
      split; [discriminate | reflexivity].
    + rewrite (full_path_relative _ Hp Ha), Hfix, Hpre.
      split; [by left|]. split; [reflexivity|].
      split; [by intros _ _ | reflexivity].
Qed.

Lemma full_path_resolution_witness :
  full_path "mcD1.pdf" = "./receipt_pdfs/mcD1.pdf" /\
  full_path "./receipt_pdfs/mcD1.pdf" = full_path "mcD1.pdf".
Proof.
  destruct (full_path_resolution "mcD1.pdf") as (_ & _ & H & _).
  apply H; reflexivity.
Defined.

(** X14. [extract_text_from_pdf] never returns the empty text.  For a
    file it can read, it returns "No text found in PDF" or the text of the
    pages, which then has a character that is no whitespace and no
    whitespace at either end. *)
Theorem extract_text_never_empty pdfs pdf_path :
  truthy (extract_text_from_pdf pdfs pdf_path) = true /\
  (forall texts,
     pdfs !! full_path pdf_path = Some (Pages texts) ->
     extract_text_from_pdf pdfs pdf_path = "No text found in PDF" \/
     (extract_text_from_pdf pdfs pdf_path = strip (pages_text "" texts) /\
      strip (extract_text_from_pdf pdfs pdf_path) =
        extract_text_from_pdf pdfs pdf_path)).
Proof.
  unfold extract_text_from_pdf. cbv zeta.
  destruct (pdfs !! full_path pdf_path) as [[texts|message]|].
  - destruct (truthy (strip (pages_text "" texts))) eqn:Ht.
    + split; [exact Ht|]. intros ? [= <-]. right.
      split; [reflexivity | apply strip_idem].
    + split; [reflexivity|]. intros ? _. by left.
  - split; [reflexivity | discriminate].
  - split; [reflexivity | discriminate].
Qed.

Lemma extract_text_never_empty_witness :
  extract_text_from_pdf
    {[ "./receipt_pdfs/a.pdf" := Pages [""; " STARBUCKS COFFEE"; "TOTAL: $9.45 "] ]}
    "a.pdf" = "STARBUCKS COFFEE
TOTAL: $9.45".
Proof.
  destruct (extract_text_never_empty
              {[ "./receipt_pdfs/a.pdf" :=
                   Pages [""; " STARBUCKS COFFEE"; "TOTAL: $9.45 "] ]} "a.pdf")
    as [_ H].
  destruct (H [""; " STARBUCKS COFFEE"; "TOTAL: $9.45 "] eq_refl)
    as [Hnone|[Htext _]].
  - vm_compute in Hnone. discriminate Hnone.
  - rewrite Htext. vm_compute. reflexivity.
Defined.

End ToolProperties.
